(** * File converter widget: a shallow embedding of
      [src/components/file-converter.tsx]

    The component keeps seven React state cells and talks to the browser
    through [FileReader], [Image], [canvas], [MediaRecorder],
    [URL.createObjectURL] / [URL.revokeObjectURL], an anchor click and the
    toast hook.  The cells are the record [State]; what the component does
    to the browser is logged in the record [World]; what the browser
    answers is read from the record [Host].  Every handler of the component
    is a computation in the monad [M], which threads a [Session] (cells and
    world) and ends in one of three ways: it returns, it throws, or it stays
    suspended for ever on a promise that never settles.

    A handler is run to quiescence: the callbacks it registers are run at
    the point where the browser fires them, and no other user event is
    interleaved.  Exceptions follow JavaScript: one thrown in a promise
    executor rejects the promise, one thrown in an event handler settles
    nothing. *)

From Stdlib Require Import String Ascii List ZArith Bool Lia DecimalString.
From Stdlib Require Import DecimalNat PeanoNat.
Import ListNotations.
Local Open Scope string_scope.
Local Open Scope Z_scope.

(** ** Data *)

(** [type ConversionType = "image" | "video"] *)
Inductive ConversionType : Set := image | video.

Definition IMAGE_FORMATS : list string :=
  ["png"; "jpeg"; "webp"; "gif"; "bmp"; "avif"].
Definition VIDEO_FORMATS : list string :=
  ["mp4"; "webm"; "ogg"; "mov"].

Definition IMAGE_MIME_TYPES : list string :=
  ["image/jpeg"; "image/png"; "image/webp"; "image/gif"; "image/bmp";
   "image/avif"].
Definition VIDEO_MIME_TYPES : list string :=
  ["video/mp4"; "video/webm"; "video/ogg"; "video/quicktime"].

(** [Array.prototype.includes] on an array of strings. *)
Definition includes (l : list string) (x : string) : bool :=
  existsb (String.eqb x) l.

(** The DOM [File]: a name, the declared MIME type and the bytes. *)
Module File.
Record t : Set := mk { name : string; type : string; data : string }.
End File.

(** The DOM [Blob]: its parts and its declared media type. *)
Module Blob.
Record t : Set := mk { parts : list string; type : string }.
End Blob.

(** What [URL.createObjectURL] was given. *)
Inductive UrlTarget : Set :=
| OfFile (f : File.t)
| OfBlob (b : Blob.t).

Inductive Variant : Set := default | destructive.

(** The argument of [toast({ title, description, variant })]. *)
Record Toast : Set := mkToast {
  title : string;
  description : string;
  variant : Variant
}.

(** [MediaRecorderOptions], the two members the component sets. *)
Record MediaRecorderOptions : Set := mkOptions {
  mimeType : string;
  videoBitsPerSecond : Z
}.

(** The anchor element that is clicked to start a download. *)
Record Link : Set := mkLink { href : string; download : string }.

(** A canvas sized after its source. *)
Record Canvas : Set := mkCanvas {
  width : Z;
  height : Z;
  source : string
}.

(** The seven [useState] cells of [FileConverter], with their initial
    values in [initialState]. *)
Record State : Set := mkState {
  file : option File.t;
  converting : bool;
  loading : bool;
  progress : Z;
  type : ConversionType;
  format : string;
  preview : string
}.

Definition initialState : State :=
  {| file := None; converting := false; loading := false; progress := 0;
     type := image; format := ""; preview := "" |}.

(** The part of the browser the component writes to. *)
Record World : Set := mkWorld {
  toasts : list Toast;               (* oldest first *)
  console : list string;             (* console.error, oldest first *)
  created : list (string * UrlTarget);   (* URL.createObjectURL *)
  revoked : list string;             (* URL.revokeObjectURL *)
  clicked : list Link;               (* link.click() *)
  recorders : list MediaRecorderOptions  (* new MediaRecorder(stream, o) *)
}.

Definition initialWorld : World :=
  {| toasts := []; console := []; created := []; revoked := [];
     clicked := []; recorders := [] |}.

(** A session: the cells, the world, and a history variable that keeps
    every value written to the [progress] cell, oldest first.  The
    component never reads the history. *)
Record Session : Set := mkSession {
  state : State;
  world : World;
  progressLog : list Z
}.

Definition initialSession : Session :=
  {| state := initialState; world := initialWorld; progressLog := [] |}.

(** An object URL is held while it has been created and not revoked. *)
Definition held (w : World) (u : string) : bool :=
  existsb (fun c => String.eqb u (fst c)) (created w)
  && negb (existsb (String.eqb u) (revoked w)).

Definition heldURLs (w : World) : list string :=
  filter (held w) (map fst (created w)).

(** ** The browser's answers *)

(** [reader.readAsDataURL(file)]: the load event with [result], the error
    event, or no usable [FileReader] (the statement throws). *)
Inductive ReadOutcome : Set :=
| ReadLoad (result : string)
| ReadError
| ReadThrows.

(** [img.src = s]: the load event with the natural size, or the error
    event. *)
Inductive ImageOutcome : Set :=
| ImgLoad (w h : Z)
| ImgError.

(** [video.src = s]: [loadedmetadata] with the frame size and no error
    event after it, or the error event in its place.  An error event
    that comes after [loadedmetadata] (it would reach [reject] while the
    frames are drawn) is not among the answers. *)
Inductive VideoOutcome : Set :=
| VideoMetadata (w h : Z)
| VideoError.

(** The answers of the browser during one run of a handler.  A video is
    taken to reach its end: [framesBeforeEnd] is a number.  Statements
    about the frames hold for every such number, hence for every prefix of
    a playback that would never end.  [canvas.captureStream] and
    [mediaRecorder.start] are taken to return.  What is proved of a video
    promise that is rejected or pending is therefore proved of the runs
    these answers describe, and of no others. *)
Record Host : Type := mkHost {
  readAsDataURL : File.t -> ReadOutcome;
  decodeImage : string -> ImageOutcome;
  toDataURL : Canvas -> string -> string;
  toBlob : Canvas -> string -> option Blob.t;
  decodeVideo : string -> VideoOutcome;
  (* does [new MediaRecorder(stream, options)] return (or throw)? *)
  recorderAccepts : MediaRecorderOptions -> bool;
  (* how many calls of [drawFrame] see [currentTime < duration] *)
  framesBeforeEnd : nat;
  (* the data handed to [ondataavailable] before [onstop] *)
  recorded : list string
}.

(** ** The monad of handlers *)

(** How a piece of an async function ends. *)
Inductive Outcome (A : Type) : Type :=
| Ok (a : A)       (* ran to its end *)
| Throw            (* an exception propagates *)
| Hang.            (* suspended on a promise that never settles *)
Arguments Ok {A} a.
Arguments Throw {A}.
Arguments Hang {A}.

(** How a promise ends. *)
Inductive Settled (A : Type) : Type :=
| Resolved (a : A)
| Rejected
| Pending.
Arguments Resolved {A} a.
Arguments Rejected {A}.
Arguments Pending {A}.

Definition M (A : Type) : Type := Session -> Outcome A * Session.

Definition ret {A} (a : A) : M A := fun s => (Ok a, s).

Definition bind {A B} (m : M A) (k : A -> M B) : M B :=
  fun s =>
    match m s with
    | (Ok a, s') => k a s'
    | (Throw, s') => (Throw, s')
    | (Hang, s') => (Hang, s')
    end.

Declare Scope js_scope.
Delimit Scope js_scope with js.
Notation "x <- m ;; k" := (bind m (fun x => k))
  (at level 61, m at next level, right associativity) : js_scope.
Notation "m ;; k" := (bind m (fun _ => k))
  (at level 61, right associativity) : js_scope.
Local Open Scope js_scope.

(** [try { body } catch (error) { handler }] *)
Definition try_catch {A} (body handler : M A) : M A :=
  fun s =>
    match body s with
    | (Throw, s') => handler s'
    | r => r
    end.

(** [try { body } finally { final }]: a suspended body never reaches
    [final]. *)
Definition try_finally {A} (body : M A) (final : M unit) : M A :=
  fun s =>
    match body s with
    | (Ok a, s') => (final ;; ret a) s'
    | (Throw, s') => (final ;; (fun s'' => (Throw, s''))) s'
    | (Hang, s') => (Hang, s')
    end.

(** [await p] *)
Definition await {A} (p : M (Settled A)) : M A :=
  fun s =>
    match p s with
    | (Ok (Resolved a), s') => (Ok a, s')
    | (Ok Rejected, s') => (Throw, s')
    | (Ok Pending, s') => (Hang, s')
    | (Throw, s') => (Throw, s')
    | (Hang, s') => (Hang, s')
    end.

Definition exec {A} (m : M A) (s : Session) : Session := snd (m s).
Definition result {A} (m : M A) (s : Session) : Outcome A := fst (m s).

(** *** State setters *)

Definition onState (f : State -> State) : M unit :=
  fun s => (Ok tt, mkSession (f (state s)) (world s) (progressLog s)).
Definition onWorld (f : World -> World) : M unit :=
  fun s => (Ok tt, mkSession (state s) (f (world s)) (progressLog s)).

Definition setFile (v : option File.t) : M unit :=
  onState (fun st =>
    mkState v (converting st) (loading st) (progress st) (type st)
            (format st) (preview st)).
Definition setConverting (v : bool) : M unit :=
  onState (fun st =>
    mkState (file st) v (loading st) (progress st) (type st)
            (format st) (preview st)).
Definition setLoading (v : bool) : M unit :=
  onState (fun st =>
    mkState (file st) (converting st) v (progress st) (type st)
            (format st) (preview st)).
(** [setProgress] takes an updater; [setProgress(n)] is
    [setProgress (fun _ => n)]. *)
Definition setProgress (f : Z -> Z) : M unit :=
  fun s =>
    let st := state s in
    let v := f (progress st) in
    (Ok tt,
     mkSession
       (mkState (file st) (converting st) (loading st) v (type st)
                (format st) (preview st))
       (world s)
       (progressLog s ++ [v])).
Definition setType (v : ConversionType) : M unit :=
  onState (fun st =>
    mkState (file st) (converting st) (loading st) (progress st) v
            (format st) (preview st)).
Definition setFormat (v : string) : M unit :=
  onState (fun st =>
    mkState (file st) (converting st) (loading st) (progress st) (type st)
            v (preview st)).
Definition setPreview (v : string) : M unit :=
  onState (fun st =>
    mkState (file st) (converting st) (loading st) (progress st) (type st)
            (format st) v).

(** *** Browser calls *)

Definition pushToast (t : Toast) (w : World) : World :=
  mkWorld (toasts w ++ [t]) (console w) (created w) (revoked w)
          (clicked w) (recorders w).

Definition toast (t : Toast) : M unit := onWorld (pushToast t).

Definition console_error (msg : string) : M unit :=
  onWorld (fun w =>
    mkWorld (toasts w) (console w ++ [msg]) (created w) (revoked w)
            (clicked w) (recorders w)).

(** The [n]-th object URL of the page. *)
Definition objectURL (n : nat) : string :=
  "blob:" ++ NilEmpty.string_of_uint (Nat.to_uint n).

Definition createObjectURL (x : UrlTarget) : M string :=
  fun s =>
    let w := world s in
    let u := objectURL (length (created w)) in
    (Ok u,
     mkSession
       (state s)
       (mkWorld (toasts w) (console w) (created w ++ [(u, x)])
                (revoked w) (clicked w) (recorders w))
       (progressLog s)).

Definition revokeObjectURL (u : string) : M unit :=
  onWorld (fun w =>
    mkWorld (toasts w) (console w) (created w) (revoked w ++ [u])
            (clicked w) (recorders w)).

(** [link.href = h; link.download = d; link.click()] *)
Definition click (l : Link) : M unit :=
  onWorld (fun w =>
    mkWorld (toasts w) (console w) (created w) (revoked w)
            (clicked w ++ [l]) (recorders w)).

(** ** The component *)

Definition resetState : M unit :=
  setFile None ;;
  setProgress (fun _ => 0) ;;
  setPreview "" ;;
  setFormat "".

Definition detectFileType (f : File.t) : M (option ConversionType) :=
  if includes IMAGE_MIME_TYPES (File.type f) then
    setType image ;; ret (Some image)
  else if includes VIDEO_MIME_TYPES (File.type f) then
    setType video ;; ret (Some video)
  else ret None.

(** *** Promises and event handlers *)

Definition throw {A} : M A := fun s => (Throw, s).

Definition getState : M State := fun s => (Ok (state s), s).

(** The body of [new Promise((resolve, reject) => ...)]: an exception of
    the executor rejects the promise. *)
Definition executor {A} (body : M (Settled A)) : M (Settled A) :=
  fun s =>
    match body s with
    | (Throw, s') => (Ok Rejected, s')
    | r => r
    end.

(** The body of an event handler ([reader.onload], [img.onload],
    [video.onloadedmetadata]) that is to settle the promise: an exception
    of the handler goes to the browser, nobody calls [resolve] or [reject],
    the promise stays pending. *)
Definition handler {A} (body : M (Settled A)) : M (Settled A) :=
  fun s =>
    match body s with
    | (Throw, s') => (Ok Pending, s')
    | r => r
    end.

(** [new MediaRecorder(stream, options)] *)
Definition newMediaRecorder (h : Host) (o : MediaRecorderOptions) : M unit :=
  if recorderAccepts h o then
    onWorld (fun w =>
      mkWorld (toasts w) (console w) (created w) (revoked w) (clicked w)
              (recorders w ++ [o]))
  else throw.

(** *** Preview *)

Definition createPreview (h : Host) (file : File.t) (fileType : ConversionType)
  : M unit :=
  setLoading true ;;
  try_catch
    (match fileType with
     | image =>
       match readAsDataURL h file with
       | ReadThrows => throw
       | ReadLoad result =>            (* reader.onload *)
         setPreview result ;;
         setLoading false
       | ReadError => ret tt           (* no reader.onerror is registered *)
       end
     | video =>
       url <- createObjectURL (OfFile file) ;;
       setPreview url ;;
       setLoading false
     end)
    (console_error "Preview creation failed:" ;;
     setLoading false).

Definition invalidFileType : Toast :=
  {| title := "Invalid file type";
     description := "Please upload an image or video file.";
     variant := destructive |}.

Definition handleFileChange (h : Host) (file : File.t) : M unit :=
  fileType <- detectFileType file ;;
  match fileType with
  | None => toast invalidFileType
  | Some fileType =>
    setFile (Some file) ;;
    setProgress (fun _ => 0) ;;
    createPreview h file fileType
  end.

(** *** Conversion *)

Definition convertImage (h : Host) (file : File.t) (format : string)
  : M (Settled string) :=
  executor
    match readAsDataURL h file with
    | ReadThrows => throw
    | ReadError => ret Rejected                 (* reader.onerror = reject *)
    | ReadLoad src =>                           (* reader.onload *)
      handler
        match decodeImage h src with
        | ImgError => ret Rejected              (* img.onerror = reject *)
        | ImgLoad w ht =>                       (* img.onload *)
          handler
            (let canvas := mkCanvas w ht src in
             if (format =? "gif")%string || (format =? "avif")%string then
               match toBlob h canvas ("image/" ++ format) with
               | Some blob =>
                 url <- createObjectURL (OfBlob blob) ;;
                 ret (Resolved url)
               | None => ret Rejected
               end
             else
               ret (Resolved (toDataURL h canvas ("image/" ++ format))))
        end
    end.

(** [drawFrame]: [more] counts the calls still to come, those scheduled
    with [requestAnimationFrame] because [video.currentTime] was below
    [video.duration]; the last call stops the recorder. *)
Fixpoint drawFrame (more : nat) : M unit :=
  setProgress (fun prev => Z.min (prev + 1) 100) ;;
  match more with
  | S more' => drawFrame more'
  | O => ret tt
  end.

Definition convertVideo (h : Host) (file : File.t) (format : string)
  : M (Settled Blob.t) :=
  executor
    match readAsDataURL h file with
    | ReadThrows => throw
    | ReadError => ret Rejected                 (* reader.onerror = reject *)
    | ReadLoad src =>                           (* reader.onload *)
      handler
        match decodeVideo h src with
        | VideoError => ret Rejected            (* video.onerror = reject *)
        | VideoMetadata w ht =>                 (* video.onloadedmetadata *)
          handler
            (let options := mkOptions ("video/" ++ format) 8000000 in
             let actualFormat :=
               if (format =? "mov")%string then "mp4" else format in
             newMediaRecorder h
               (mkOptions ("video/" ++ actualFormat)
                          (videoBitsPerSecond options)) ;;
             drawFrame (framesBeforeEnd h) ;;
             (* mediaRecorder.onstop *)
             let blob :=
               Blob.mk (recorded h)
                       (if (format =? "mov")%string then "video/quicktime"
                        else "video/" ++ format) in
             ret (Resolved blob))
        end
    end.

Definition conversionComplete : Toast :=
  {| title := "Conversion complete";
     description := "Your file has been converted successfully!";
     variant := default |}.

Definition conversionFailed : Toast :=
  {| title := "Conversion failed";
     description := "There was an error converting your file.";
     variant := destructive |}.

(** The conversion proper: the [try] block of [handleConvert]. *)
Definition convertBody (h : Host) (file : File.t) (type : ConversionType)
  (format : string) : M unit :=
  setConverting true ;;
  setProgress (fun _ => 0) ;;
  match type with
  | image =>
    result <- await (convertImage h file format) ;;
    click (mkLink result ("converted." ++ format)) ;;
    if (format =? "gif")%string || (format =? "avif")%string then
      revokeObjectURL result
    else ret tt
  | video =>
    result <- await (convertVideo h file format) ;;
    url <- createObjectURL (OfBlob result) ;;
    click (mkLink url ("converted." ++ format)) ;;
    revokeObjectURL url
  end ;;
  setProgress (fun _ => 100) ;;
  toast conversionComplete.

Definition handleConvert (h : Host) : M unit :=
  st <- getState ;;                 (* the cells as the handler closes over them *)
  match file st with
  | None => ret tt
  | Some file =>
    if (format st =? "")%string then ret tt
    else
      try_finally
        (try_catch
           (convertBody h file (type st) (format st))
           (console_error "Conversion failed:" ;;
            toast conversionFailed))
        (setConverting false)
  end.

(** ** The rendered interface *)

(** What the user can do to the component.  Each handler run has its own
    browser answers. *)
Inductive Event : Type :=
| DropFile (h : Host) (f : File.t)   (* onDrop, or onChange of the input *)
| SelectFormat (fmt : string)        (* onValueChange={setFormat} *)
| ClickReset                         (* onClick={resetState} *)
| ClickConvert (h : Host).           (* onClick={handleConvert} *)

Definition hasFile (st : State) : bool :=
  match file st with Some _ => true | None => false end.

(** The JSX: the drop zone is rendered when [!file]; otherwise the reset
    button, the select with the formats of the current [type], and the
    convert button, [disabled={converting || !format}]. *)
Definition rendered (e : Event) (st : State) : bool :=
  match e with
  | DropFile _ _ => negb (hasFile st)
  | SelectFormat fmt =>
    hasFile st
    && includes (match type st with
                 | image => IMAGE_FORMATS
                 | video => VIDEO_FORMATS
                 end) fmt
  | ClickReset => hasFile st
  | ClickConvert _ =>
    hasFile st && negb (converting st || (format st =? "")%string)
  end.

Definition fire (e : Event) : M unit :=
  match e with
  | DropFile h f => handleFileChange h f
  | SelectFormat fmt => setFormat fmt
  | ClickReset => resetState
  | ClickConvert h => handleConvert h
  end.

(** The sessions the interface can reach from the initial one, each
    handler having run to quiescence before the next event: these are the
    sessions between two handlers, not the ones in the middle of a
    conversion. *)
Inductive reachable : Session -> Prop :=
| reachable_initial : reachable initialSession
| reachable_fire (s : Session) (e : Event) :
    reachable s -> rendered e (state s) = true ->
    reachable (exec (fire e) s).

(** ** Sample hosts and files *)

Definition png : File.t := File.mk "cat.png" "image/png" "PNGDATA".
Definition mp4 : File.t := File.mk "clip.mp4" "video/mp4" "MP4DATA".
Definition pdf : File.t := File.mk "paper.pdf" "application/pdf" "PDFDATA".

(** A browser where everything works; the video ends after three frames. *)
Definition goodHost : Host :=
  {| readAsDataURL := fun f => ReadLoad ("data:" ++ File.type f ++ ";base64," ++ File.data f);
     decodeImage := fun _ => ImgLoad 640 480;
     toDataURL := fun c t => "data:" ++ t ++ ";base64," ++ source c;
     toBlob := fun c t => Some (Blob.mk [source c] t);
     decodeVideo := fun _ => VideoMetadata 640 480;
     recorderAccepts := fun _ => true;
     framesBeforeEnd := 2;
     recorded := ["chunk0"; "chunk1"] |}.

(** A browser whose [MediaRecorder] supports [video/webm] only. *)
Definition webmOnlyHost : Host :=
  {| readAsDataURL := readAsDataURL goodHost;
     decodeImage := decodeImage goodHost;
     toDataURL := toDataURL goodHost;
     toBlob := toBlob goodHost;
     decodeVideo := decodeVideo goodHost;
     recorderAccepts := fun o => (mimeType o =? "video/webm")%string;
     framesBeforeEnd := framesBeforeEnd goodHost;
     recorded := recorded goodHost |}.

(** A browser in which reading the file fails with the error event. *)
Definition unreadableHost : Host :=
  {| readAsDataURL := fun _ => ReadError;
     decodeImage := decodeImage goodHost;
     toDataURL := toDataURL goodHost;
     toBlob := toBlob goodHost;
     decodeVideo := decodeVideo goodHost;
     recorderAccepts := recorderAccepts goodHost;
     framesBeforeEnd := framesBeforeEnd goodHost;
     recorded := recorded goodHost |}.


(** Sessions reached through the interface: a file is dropped, then a
    format is picked in the select ([onValueChange={setFormat}]). *)
Definition pngToWebp : Session :=
  exec (handleFileChange goodHost png ;; setFormat "webp") initialSession.
Definition mp4ToMov : Session :=
  exec (handleFileChange goodHost mp4 ;; setFormat "mov") initialSession.
Definition mp4ToOgg : Session :=
  exec (handleFileChange webmOnlyHost mp4 ;; setFormat "ogg") initialSession.

(** A video was dropped and cleared, then a picture is to become a gif. *)
Definition pngToGifAfterVideo : Session :=
  exec (handleFileChange goodHost mp4 ;; resetState ;;
        handleFileChange goodHost png ;; setFormat "gif") initialSession.

(** ** Vocabulary of the statements *)

(** How the promise [p], started in session [s], ends. *)
Definition settlement {A} (p : M (Settled A)) (s : Session) : Settled unit :=
  match result p s with
  | Ok (Resolved _) => Resolved tt
  | Ok Rejected | Throw => Rejected
  | Ok Pending | Hang => Pending
  end.

(** The promise [handleConvert] awaits for a file of kind [k]. *)
Definition conversion (h : Host) (f : File.t) (k : ConversionType)
  (fmt : string) (s : Session) : Settled unit :=
  match k with
  | image => settlement (convertImage h f fmt) s
  | video => settlement (convertVideo h f fmt) s
  end.

(** The values [k] successive calls of the updater of [drawFrame] give,
    starting above [p]. *)
Fixpoint ramp (p : Z) (k : nat) : list Z :=
  match k with
  | O => []
  | S k' => Z.min (p + 1) 100 :: ramp (Z.min (p + 1) 100) k'
  end.

(** Adjacent values never go down. *)
Fixpoint nondecreasing (l : list Z) : Prop :=
  match l with
  | x :: (y :: _) as l' => x <= y /\ nondecreasing l'
  | _ => True
  end.

(** A data URI, as [canvas.toDataURL] and [readAsDataURL] return. *)
Definition dataURI (u : string) : bool :=
  match u with
  | String "d" (String "a" (String "t" (String "a" (String ":" _)))) => true
  | _ => false
  end.

(** [keeps m]: a run of [m] leaves the cells [file] and [format] as they
    are, however it ends. *)
Definition keeps {A} (m : M A) : Prop :=
  forall s,
    file (state (exec m s)) = file (state s) /\
    format (state (exec m s)) = format (state s).

(** ** The entry points of the drop zone *)

(** The part of a [DragEvent] that [handleDrop] touches. *)
Record DragEvent : Set := mkDragEvent {
  files : list File.t;               (* e.dataTransfer.files *)
  defaultPrevented : bool
}.

(** [handleDrop] hands the event back as it leaves it. *)
Definition handleDrop (h : Host) (e : DragEvent) : M DragEvent :=
  let e := mkDragEvent (files e) true in          (* e.preventDefault() *)
  match nth_error (files e) 0 with                (* files[0] *)
  | Some droppedFile => handleFileChange h droppedFile ;; ret e
  | None => ret e
  end.

(** [handleInputChange]; the argument is [e.target.files], a [FileList]
    or null. *)
Definition handleInputChange (h : Host) (files : option (list File.t))
  : M unit :=
  match files with
  | Some l =>
    match nth_error l 0 with
    | Some f => handleFileChange h f
    | None => ret tt
    end
  | None => ret tt
  end.

(** ** More vocabulary *)

(** The sessions the interface can reach from [s]. *)
Inductive after (s : Session) : Session -> Prop :=
| after_here : after s s
| after_fire (s' : Session) (e : Event) :
    after s s' -> rendered e (state s') = true ->
    after s (exec (fire e) s').

(** The cells with [converting] and [progress] replaced. *)
Definition withRun (c : bool) (p : Z) (st : State) : State :=
  mkState (file st) c (loading st) p (type st) (format st) (preview st).

(** The formats the select offers for a kind of file. *)
Definition formatsOf (k : ConversionType) : list string :=
  match k with
  | image => IMAGE_FORMATS
  | video => VIDEO_FORMATS
  end.

(** The allow-list of a kind of file. *)
Definition mimeTypesOf (k : ConversionType) : list string :=
  match k with
  | image => IMAGE_MIME_TYPES
  | video => VIDEO_MIME_TYPES
  end.

(** Object URLs are named in the order of their creation. *)
Definition namedInOrder (w : World) : Prop :=
  map fst (created w) = map objectURL (seq 0 (length (created w))).

(** Every revoked URL is the URL of a blob. *)
Definition revokedAreBlobs (w : World) : Prop :=
  forall u, In u (revoked w) -> exists b, In (u, OfBlob b) (created w).

(** * Properties *)

(** ** Allow-lists *)

Lemma includes_In (l : list string) (x : string) :
  includes l x = true <-> In x l.
Proof.
  unfold includes. rewrite existsb_exists. split.
  - intros (y & Hy & E). apply String.eqb_eq in E. now subst.
  - intros H. exists x. split; [assumption | apply String.eqb_refl].
Qed.

Lemma allow_lists_disjoint (x : string) :
  includes IMAGE_MIME_TYPES x = true -> includes VIDEO_MIME_TYPES x = false.
Proof.
  intros H. apply includes_In in H. cbn in H.
  repeat destruct H as [<- | H]; try reflexivity. contradiction.
Qed.

(** ** [resetState] *)

Section Reset.
Variable s : Session.

Lemma resetState_runs :
  resetState s =
    (Ok tt,
     mkSession
       (mkState None (converting (state s)) (loading (state s)) 0
                (type (state s)) "" "")
       (world s)
       (progressLog s ++ [0])).
Proof. reflexivity. Qed.

(** [resetState] is setter calls only: what the browser holds for the
    component, object URLs included, is what it held before. *)
Lemma resetState_world :
  world (exec resetState s) = world s /\
  heldURLs (world (exec resetState s)) = heldURLs (world s).
Proof. split; reflexivity. Qed.
End Reset.

(** ** [detectFileType] and [createPreview] *)

Section Acquisition.
Variables (h : Host) (f : File.t) (s : Session).

Lemma detectFileType_image :
  includes IMAGE_MIME_TYPES (File.type f) = true ->
  detectFileType f s = (setType image ;; ret (Some image)) s.
Proof. unfold detectFileType. now intros ->. Qed.

Lemma detectFileType_video :
  includes VIDEO_MIME_TYPES (File.type f) = true ->
  detectFileType f s = (setType video ;; ret (Some video)) s.
Proof.
  intros Hv. unfold detectFileType.
  destruct (includes IMAGE_MIME_TYPES (File.type f)) eqn:Hi.
  - apply allow_lists_disjoint in Hi. congruence.
  - now rewrite Hv.
Qed.

Lemma detectFileType_other :
  includes IMAGE_MIME_TYPES (File.type f) = false ->
  includes VIDEO_MIME_TYPES (File.type f) = false ->
  detectFileType f s = (Ok None, s).
Proof. unfold detectFileType. now intros -> ->. Qed.

(** [createPreview] always returns, and it writes to the cells [loading]
    and [preview] only; it shows no toast. *)
Lemma createPreview_frame (k : ConversionType) :
  let s' := exec (createPreview h f k) s in
  result (createPreview h f k) s = Ok tt /\
  file (state s') = file (state s) /\
  converting (state s') = converting (state s) /\
  progress (state s') = progress (state s) /\
  type (state s') = type (state s) /\
  format (state s') = format (state s) /\
  toasts (world s') = toasts (world s) /\
  progressLog s' = progressLog s.
Proof.
  unfold exec, result, createPreview, try_catch, bind. cbn.
  destruct k; cbn.
  - destruct (readAsDataURL h f); cbn; repeat split.
  - repeat split.
Qed.
End Acquisition.

(** ** Who writes [file] and [format] *)

Create HintDb keeps.

Lemma keeps_ret {A} (a : A) : keeps (ret a).
Proof. intros s. split; reflexivity. Qed.

Lemma keeps_throw {A} : keeps (@throw A).
Proof. intros s. split; reflexivity. Qed.

Lemma keeps_bind {A B} (m : M A) (k : A -> M B) :
  keeps m -> (forall a, keeps (k a)) -> keeps (bind m k).
Proof.
  intros Hm Hk s. specialize (Hm s). unfold exec, bind in *.
  destruct (m s) as [[a | |] s1]; cbn in *; try assumption.
  destruct (Hk a s1) as [H1 H2]. unfold exec in *.
  split; [now rewrite H1 | now rewrite H2].
Qed.

Lemma keeps_try_catch {A} (body handler : M A) :
  keeps body -> keeps handler -> keeps (try_catch body handler).
Proof.
  intros Hb Hh s. specialize (Hb s). unfold exec, try_catch in *.
  destruct (body s) as [[a | |] s1]; cbn in *; try assumption.
  destruct (Hh s1) as [H1 H2]. unfold exec in *.
  split; [now rewrite H1 | now rewrite H2].
Qed.

Lemma keeps_try_finally {A} (body : M A) (final : M unit) :
  keeps body -> keeps final -> keeps (try_finally body final).
Proof.
  intros Hb Hf s. specialize (Hb s). unfold exec, try_finally, bind in *.
  destruct (body s) as [[a | |] s1]; cbn in *; try assumption;
    destruct (Hf s1) as [H1 H2]; unfold exec in *;
    destruct (final s1) as [[[] | |] s2]; cbn in *;
    (split; [now rewrite H1 | now rewrite H2]).
Qed.

Lemma keeps_await {A} (p : M (Settled A)) : keeps p -> keeps (await p).
Proof.
  intros Hp s. specialize (Hp s). unfold exec, await in *.
  destruct (p s) as [[[a | |] | |] s1]; assumption.
Qed.

Lemma keeps_executor {A} (p : M (Settled A)) : keeps p -> keeps (executor p).
Proof.
  intros Hp s. specialize (Hp s). unfold exec, executor in *.
  destruct (p s) as [[a | |] s1]; assumption.
Qed.

Lemma keeps_handler {A} (p : M (Settled A)) : keeps p -> keeps (handler p).
Proof.
  intros Hp s. specialize (Hp s). unfold exec, handler in *.
  destruct (p s) as [[a | |] s1]; assumption.
Qed.

Lemma keeps_onWorld (g : World -> World) : keeps (onWorld g).
Proof. intros s. split; reflexivity. Qed.

Lemma keeps_setConverting (v : bool) : keeps (setConverting v).
Proof. intros s. split; reflexivity. Qed.

Lemma keeps_setLoading (v : bool) : keeps (setLoading v).
Proof. intros s. split; reflexivity. Qed.

Lemma keeps_setProgress (g : Z -> Z) : keeps (setProgress g).
Proof. intros s. split; reflexivity. Qed.

Lemma keeps_setType (v : ConversionType) : keeps (setType v).
Proof. intros s. split; reflexivity. Qed.

Lemma keeps_setPreview (v : string) : keeps (setPreview v).
Proof. intros s. split; reflexivity. Qed.

Lemma keeps_createObjectURL (x : UrlTarget) : keeps (createObjectURL x).
Proof. intros s. split; reflexivity. Qed.

#[local] Hint Resolve keeps_ret keeps_throw keeps_try_catch
  keeps_try_finally keeps_await keeps_executor keeps_handler keeps_onWorld
  keeps_setConverting keeps_setLoading keeps_setProgress keeps_setType
  keeps_setPreview keeps_createObjectURL : keeps.
#[local] Hint Extern 2 (keeps (bind _ _)) =>
  apply keeps_bind; [| intros ?] : keeps.
#[local] Hint Extern 1 (keeps (toast _)) => apply keeps_onWorld : keeps.
#[local] Hint Extern 1 (keeps (click _)) => apply keeps_onWorld : keeps.
#[local] Hint Extern 1 (keeps (console_error _)) =>
  apply keeps_onWorld : keeps.
#[local] Hint Extern 1 (keeps (revokeObjectURL _)) =>
  apply keeps_onWorld : keeps.

Lemma keeps_drawFrame (more : nat) : keeps (drawFrame more).
Proof.
  induction more as [| n IH]; cbn [drawFrame]; auto with keeps.
Qed.

Lemma keeps_newMediaRecorder (h : Host) (o : MediaRecorderOptions) :
  keeps (newMediaRecorder h o).
Proof.
  unfold newMediaRecorder. destruct (recorderAccepts h o); auto with keeps.
Qed.

#[local] Hint Resolve keeps_drawFrame keeps_newMediaRecorder : keeps.

Lemma keeps_convertImage (h : Host) (f : File.t) (fmt : string) :
  keeps (convertImage h f fmt).
Proof.
  unfold convertImage.
  destruct (readAsDataURL h f) as [src | |]; auto with keeps.
  destruct (decodeImage h src); auto with keeps.
  apply keeps_executor, keeps_handler, keeps_handler. cbv zeta.
  destruct (_ || _); auto with keeps.
  destruct (toBlob h _ _); auto with keeps.
Qed.

Lemma keeps_convertVideo (h : Host) (f : File.t) (fmt : string) :
  keeps (convertVideo h f fmt).
Proof.
  unfold convertVideo.
  destruct (readAsDataURL h f) as [src | |]; auto with keeps.
  destruct (decodeVideo h src); auto 8 with keeps.
Qed.

#[local] Hint Resolve keeps_convertImage keeps_convertVideo : keeps.

Lemma keeps_convertBody (h : Host) (f : File.t) (k : ConversionType)
  (fmt : string) : keeps (convertBody h f k fmt).
Proof.
  unfold convertBody. destruct k.
  - repeat (apply keeps_bind; [auto with keeps | intros ?]);
      auto with keeps.
    destruct (_ || _); auto with keeps.
  - auto 10 with keeps.
Qed.

(** [createPreview] writes neither of them either. *)
Lemma keeps_createPreview (h : Host) (f : File.t) (k : ConversionType) :
  keeps (createPreview h f k).
Proof.
  unfold createPreview. destruct k.
  - destruct (readAsDataURL h f); auto 8 with keeps.
  - auto 8 with keeps.
Qed.

Section AcquisitionRuns.
Variables (h : Host) (f : File.t) (s : Session).

(** An accepted file: the cells after [detectFileType], [setFile] and
    [setProgress(0)], then the preview. *)
Lemma handleFileChange_accepts (k : ConversionType) :
  detectFileType f s = (setType k ;; ret (Some k)) s ->
  handleFileChange h f s =
    createPreview h f k
      (mkSession
         (mkState (Some f) (converting (state s)) (loading (state s)) 0 k
                  (format (state s)) (preview (state s)))
         (world s)
         (progressLog s ++ [0])).
Proof.
  intros E. unfold handleFileChange, bind at 1. rewrite E. reflexivity.
Qed.

Lemma handleFileChange_accepted_cells (k : ConversionType) :
  detectFileType f s = (setType k ;; ret (Some k)) s ->
  let s' := exec (handleFileChange h f) s in
  result (handleFileChange h f) s = Ok tt /\
  file (state s') = Some f /\
  progress (state s') = 0 /\
  type (state s') = k /\
  format (state s') = format (state s) /\
  toasts (world s') = toasts (world s).
Proof.
  intros E. unfold exec, result. rewrite (handleFileChange_accepts k E).
  match goal with
  | |- context [createPreview h f k ?s0] =>
    destruct (createPreview_frame h f s0 k)
      as (Hr & Hf & _ & Hp & Ht & Hfmt & Hto & _)
  end.
  unfold exec, result in *. cbn in *. repeat split; assumption.
Qed.
End AcquisitionRuns.

(** ** [createPreview] *)

Section Preview.
Variables (h : Host) (f : File.t) (s : Session).

(** The first thing [createPreview] does is [setLoading(true)]. *)
Lemma createPreview_starts_loading (k : ConversionType) :
  exists rest : M unit,
    createPreview h f k = (setLoading true ;; rest).
Proof. eexists. reflexivity. Qed.

(** The video path ends with a fresh object URL as preview, not
    loading. *)
Lemma createPreview_video :
  let s' := exec (createPreview h f video) s in
  loading (state s') = false /\
  preview (state s') = objectURL (length (created (world s))) /\
  created (world s') =
    (created (world s) ++ [(preview (state s'), OfFile f)])%list /\
  revoked (world s') = revoked (world s).
Proof. cbn. repeat split. Qed.

(** The picture was read: its data URL is the preview, not loading. *)
Lemma createPreview_image_loaded (u : string) :
  readAsDataURL h f = ReadLoad u ->
  let s' := exec (createPreview h f image) s in
  loading (state s') = false /\ preview (state s') = u.
Proof.
  intros E. unfold exec, createPreview, try_catch, bind. cbn.
  rewrite E. cbn. split; reflexivity.
Qed.

(** No [FileReader]: the [catch] block logs, stops loading and leaves
    the preview alone. *)
Lemma createPreview_image_throws :
  readAsDataURL h f = ReadThrows ->
  let s' := exec (createPreview h f image) s in
  loading (state s') = false /\
  preview (state s') = preview (state s) /\
  console (world s') =
    (console (world s) ++ ["Preview creation failed:"])%list.
Proof.
  intros E. unfold exec, createPreview, try_catch, bind. cbn.
  rewrite E. cbn. repeat split.
Qed.

(** The read fails with the error event: nothing listens to it.  The
    preview is left alone, and so is [loading], which stays [true]. *)
Lemma createPreview_image_read_error :
  readAsDataURL h f = ReadError ->
  createPreview h f image s = setLoading true s.
Proof.
  intros E. unfold createPreview, try_catch, bind. cbn.
  rewrite E. reflexivity.
Qed.

(** Whenever no preview comes out, the preview cell is left as it was. *)
Lemma createPreview_failure_keeps_preview :
  readAsDataURL h f = ReadError \/ readAsDataURL h f = ReadThrows ->
  preview (state (exec (createPreview h f image) s)) = preview (state s).
Proof.
  intros [E | E].
  - unfold exec. now rewrite (createPreview_image_read_error E).
  - now apply createPreview_image_throws.
Qed.
End Preview.

(** ** [drawFrame] *)

Lemma ramp_snoc (k : nat) : forall p,
  ramp p (S k) = (ramp p k ++ [Nat.iter (S k) (fun q => Z.min (q + 1) 100) p])%list.
Proof.
  induction k as [| k IH]; intros p.
  - reflexivity.
  - change (ramp p (S (S k)))
      with (Z.min (p + 1) 100 :: ramp (Z.min (p + 1) 100) (S k)).
    rewrite IH. cbn [ramp app]. do 2 f_equal.
    now rewrite (Nat.iter_succ_r (S k)).
Qed.

(** The capped count in closed form. *)
Lemma iter_frame_closed (k : nat) (p : Z) :
  p <= 100 ->
  Nat.iter k (fun q => Z.min (q + 1) 100) p = Z.min (p + Z.of_nat k) 100.
Proof.
  intros Hp. induction k as [| k IH].
  - cbn. lia.
  - rewrite Nat.iter_succ, IH. lia.
Qed.

Lemma ramp_bounds (k : nat) : forall p,
  0 <= p <= 100 -> Forall (fun q => 0 <= q <= 100) (ramp p k).
Proof.
  induction k as [| k IH]; intros p Hp; cbn [ramp]; constructor.
  - lia.
  - apply IH. lia.
Qed.

Lemma ramp_nondecreasing (k : nat) : forall p,
  p <= 100 -> nondecreasing (p :: ramp p k).
Proof.
  induction k as [| k IH]; intros p Hp; cbn [ramp].
  - exact I.
  - split; [lia |]. apply IH. lia.
Qed.

(** A value above all the others may be appended. *)
Lemma nondecreasing_snoc (l : list Z) : forall x y,
  nondecreasing (x :: l) -> Forall (fun q => q <= y) (x :: l) ->
  nondecreasing (x :: l ++ [y]).
Proof.
  induction l as [| z l IH]; intros x y Hl Hy.
  - inversion Hy; subst. cbn. auto.
  - destruct Hl as [Hxz Hl]. inversion Hy; subst.
    cbn [app nondecreasing]. split; [assumption |].
    apply IH; assumption.
Qed.

(** [drawFrame more] always returns; it makes [S more] updates of
    [progress], each the successor of the last one capped at 100, and
    touches nothing else. *)
Lemma drawFrame_runs (more : nat) : forall s,
  drawFrame more s =
    (Ok tt,
     mkSession
       (mkState (file (state s)) (converting (state s)) (loading (state s))
                (Nat.iter (S more) (fun q => Z.min (q + 1) 100)
                          (progress (state s)))
                (type (state s)) (format (state s)) (preview (state s)))
       (world s)
       (progressLog s ++ ramp (progress (state s)) (S more))).
Proof.
  induction more as [| n IH]; intros s.
  - reflexivity.
  - change (drawFrame (S n) s)
      with (drawFrame n (exec (setProgress (fun q => Z.min (q + 1) 100)) s)).
    rewrite IH. cbn [exec setProgress snd state world progressLog
                     file converting loading progress type format preview].
    rewrite <- app_assoc. cbn [app].
    now rewrite (Nat.iter_succ_r (S n)).
Qed.

(** One more frame is one more update after the frames before it. *)
Lemma drawFrame_next (more : nat) (s : Session) :
  progress (state (exec (drawFrame (S more)) s)) =
    Z.min (progress (state (exec (drawFrame more) s)) + 1) 100.
Proof.
  unfold exec. rewrite !drawFrame_runs. cbn [snd state progress].
  now rewrite Nat.iter_succ.
Qed.

(** ** [convertImage] and [convertVideo] *)

Section Promises.
Variables (h : Host) (f : File.t) (fmt : string).

(** [convertImage] hands back a promise and touches neither the cells
    nor anything of the world but the object URLs it creates. *)
Lemma convertImage_frame (s : Session) :
  exists r s',
    convertImage h f fmt s = (Ok r, s') /\
    state s' = state s /\
    toasts (world s') = toasts (world s) /\
    console (world s') = console (world s) /\
    revoked (world s') = revoked (world s) /\
    clicked (world s') = clicked (world s) /\
    recorders (world s') = recorders (world s) /\
    progressLog s' = progressLog s.
Proof.
  unfold convertImage, executor, handler.
  destruct (readAsDataURL h f) as [src | |]; cbn;
    [ | do 2 eexists; repeat split ..].
  destruct (decodeImage h src) as [w ht |]; cbn;
    [ | do 2 eexists; repeat split ].
  destruct ((fmt =? "gif")%string || (fmt =? "avif")%string); cbn;
    [ | do 2 eexists; repeat split ].
  destruct (toBlob h _ _); cbn; do 2 eexists; repeat split.
Qed.

(** How the picture promise ends is decided by the browser alone. *)
Lemma convertImage_settlement (s1 s2 : Session) :
  settlement (convertImage h f fmt) s1 =
  settlement (convertImage h f fmt) s2.
Proof.
  unfold settlement, result, convertImage, executor, handler.
  destruct (readAsDataURL h f) as [src | |]; cbn; try reflexivity.
  destruct (decodeImage h src) as [w ht |]; cbn; try reflexivity.
  destruct ((fmt =? "gif")%string || (fmt =? "avif")%string); cbn;
    try reflexivity.
  destruct (toBlob h _ _); reflexivity.
Qed.

(** The video promise: rejected when the read or the decoding fails. *)
Lemma convertVideo_read_fails (s : Session) :
  readAsDataURL h f = ReadError \/ readAsDataURL h f = ReadThrows ->
  convertVideo h f fmt s = (Ok Rejected, s).
Proof.
  unfold convertVideo, executor. intros [E | E]; rewrite E; reflexivity.
Qed.

Lemma convertVideo_decode_fails (s : Session) (src : string) :
  readAsDataURL h f = ReadLoad src ->
  decodeVideo h src = VideoError ->
  convertVideo h f fmt s = (Ok Rejected, s).
Proof.
  unfold convertVideo, executor, handler. intros -> ->. reflexivity.
Qed.

(** The options [convertVideo] hands to [new MediaRecorder]. *)
Let options : MediaRecorderOptions :=
  mkOptions ("video/" ++ (if (fmt =? "mov")%string then "mp4" else fmt))
            8000000.

(** The constructor throws inside [onloadedmetadata]: neither [resolve]
    nor [reject] is ever called. *)
Lemma convertVideo_recorder_throws (s : Session) (src : string) (w ht : Z) :
  readAsDataURL h f = ReadLoad src ->
  decodeVideo h src = VideoMetadata w ht ->
  recorderAccepts h options = false ->
  convertVideo h f fmt s = (Ok Pending, s).
Proof.
  unfold convertVideo, executor, handler, newMediaRecorder, bind, options.
  intros -> -> E. cbn [videoBitsPerSecond]. rewrite E. reflexivity.
Qed.

(** The recording runs: the recorder is the one of [options], the frames
    are drawn, and the promise resolves with the chunks in a blob. *)
Lemma convertVideo_records (s : Session) (src : string) (w ht : Z) :
  readAsDataURL h f = ReadLoad src ->
  decodeVideo h src = VideoMetadata w ht ->
  recorderAccepts h options = true ->
  convertVideo h f fmt s =
    (Ok (Resolved
           (Blob.mk (recorded h)
                    (if (fmt =? "mov")%string then "video/quicktime"
                     else "video/" ++ fmt))),
     mkSession
       (mkState (file (state s)) (converting (state s))
                (loading (state s))
                (Nat.iter (S (framesBeforeEnd h))
                          (fun q => Z.min (q + 1) 100)
                          (progress (state s)))
                (type (state s)) (format (state s)) (preview (state s)))
       (mkWorld (toasts (world s)) (console (world s))
                (created (world s)) (revoked (world s))
                (clicked (world s)) (recorders (world s) ++ [options]))
       (progressLog s
          ++ ramp (progress (state s)) (S (framesBeforeEnd h)))).
Proof.
  unfold convertVideo, executor, handler, newMediaRecorder, bind, options.
  intros -> -> E. cbn [videoBitsPerSecond]. rewrite E.
  unfold onWorld. rewrite drawFrame_runs. reflexivity.
Qed.

(** The four cases above are all there is. *)
Lemma convertVideo_cases (s : Session) :
  convertVideo h f fmt s = (Ok Rejected, s) \/
  convertVideo h f fmt s = (Ok Pending, s) \/
  exists b s',
    convertVideo h f fmt s = (Ok (Resolved b), s') /\
    recorderAccepts h options = true /\
    Blob.type b = (if (fmt =? "mov")%string then "video/quicktime"
                   else "video/" ++ fmt) /\
    recorders (world s') = (recorders (world s) ++ [options])%list /\
    progressLog s' =
      (progressLog s
         ++ ramp (progress (state s)) (S (framesBeforeEnd h)))%list /\
    file (state s') = file (state s) /\
    converting (state s') = converting (state s) /\
    toasts (world s') = toasts (world s) /\
    clicked (world s') = clicked (world s).
Proof.
  destruct (readAsDataURL h f) as [src | |] eqn:Er;
    [ | left; apply convertVideo_read_fails; auto ..].
  destruct (decodeVideo h src) as [w ht |] eqn:Ed;
    [ | left; now apply convertVideo_decode_fails with src ].
  destruct (recorderAccepts h options) eqn:Ea.
  - right; right. do 2 eexists.
    rewrite (convertVideo_records s src w ht Er Ed Ea).
    repeat split.
  - right; left. now apply convertVideo_recorder_throws with src w ht.
Qed.

Lemma convertVideo_settlement (s1 s2 : Session) :
  settlement (convertVideo h f fmt) s1 =
  settlement (convertVideo h f fmt) s2.
Proof.
  unfold settlement, result.
  destruct (readAsDataURL h f) as [src | |] eqn:Er;
    [ | rewrite !convertVideo_read_fails by auto; reflexivity ..].
  destruct (decodeVideo h src) as [w ht |] eqn:Ed;
    [ | rewrite !(convertVideo_decode_fails _ src Er Ed); reflexivity ].
  destruct (recorderAccepts h options) eqn:Ea.
  - rewrite !(convertVideo_records _ src w ht Er Ed Ea). reflexivity.
  - rewrite !(convertVideo_recorder_throws _ src w ht Er Ed Ea).
    reflexivity.
Qed.

Lemma conversion_any_session (k : ConversionType) (s1 s2 : Session) :
  conversion h f k fmt s1 = conversion h f k fmt s2.
Proof.
  destruct k; [apply convertImage_settlement | apply convertVideo_settlement].
Qed.
End Promises.

Section PicturePromise.
Variables (h : Host) (f : File.t) (fmt : string) (s : Session).

(** The picture promise is rejected in the session it started from, or
    resolved; it never stays pending. *)
Lemma convertImage_cases :
  convertImage h f fmt s = (Ok Rejected, s) \/
  exists u s',
    convertImage h f fmt s = (Ok (Resolved u), s') /\
    state s' = state s /\
    toasts (world s') = toasts (world s) /\
    clicked (world s') = clicked (world s) /\
    progressLog s' = progressLog s.
Proof.
  unfold convertImage, executor, handler.
  destruct (readAsDataURL h f) as [src | |]; cbn; auto.
  destruct (decodeImage h src) as [w ht |]; cbn; auto.
  destruct ((fmt =? "gif")%string || (fmt =? "avif")%string); cbn.
  - destruct (toBlob h _ _); cbn; auto.
    right. do 2 eexists. repeat split.
  - right. do 2 eexists. repeat split.
Qed.
End PicturePromise.

(** ** [handleConvert] *)

(** Runs the [try] block up to the awaited promise, whose run from
    [start] is known by [E]. *)
Ltac to_the_promise E :=
  unfold exec, result, try_finally, try_catch, convertBody, bind, await;
  cbn [setConverting setProgress onState fst snd];
  match goal with
  | |- context [convertImage ?h ?f ?x ?s0] =>
    match type of E with
    | convertImage _ _ _ ?s1 = _ => change s0 with s1
    end
  | |- context [convertVideo ?h ?f ?x ?s0] =>
    match type of E with
    | convertVideo _ _ _ ?s1 = _ => change s0 with s1
    end
  end;
  rewrite E; cbn.

Section Convert.
Variables (h : Host) (s : Session) (f : File.t).
Hypothesis Hfile : file (state s) = Some f.
Hypothesis Hfmt : format (state s) <> "".

Lemma handleConvert_starts :
  handleConvert h s =
    try_finally
      (try_catch
         (convertBody h f (type (state s)) (format (state s)))
         (console_error "Conversion failed:" ;; toast conversionFailed))
      (setConverting false) s.
Proof.
  unfold handleConvert, bind at 1, getState. rewrite Hfile.
  destruct (String.eqb_spec (format (state s)) ""); [contradiction |].
  reflexivity.
Qed.

(** The session in which the promise is created: [converting] is set
    and [progress] is 0. *)
Let start : Session :=
  exec (setConverting true ;; setProgress (fun _ => 0)) s.

(** The promise resolves: the download is clicked, [progress] is set to
    100, the success toast is shown, [converting] is cleared. *)
Lemma handleConvert_resolved :
  conversion h f (type (state s)) (format (state s)) s = Resolved tt ->
  let s' := exec (handleConvert h) s in
  result (handleConvert h) s = Ok tt /\
  progress (state s') = 100 /\
  converting (state s') = false /\
  toasts (world s') = (toasts (world s) ++ [conversionComplete])%list /\
  progressLog s' =
    (progressLog s
       ++ 0 :: match type (state s) with
               | image => []
               | video => ramp 0 (S (framesBeforeEnd h))
               end ++ [100])%list /\
  exists u,
    clicked (world s') =
      (clicked (world s)
         ++ [mkLink u ("converted." ++ format (state s))])%list.
Proof.
  intros Hc. cbv zeta. unfold exec, result. rewrite handleConvert_starts.
  rewrite (conversion_any_session h f (format (state s))
             (type (state s)) s start) in Hc.
  unfold conversion, settlement, result in Hc.
  destruct (type (state s)).
  - destruct (convertImage_cases h f (format (state s)) start)
      as [E | (u & s2 & E & Hst & Hto & Hcl & Hlog)];
      rewrite E in Hc; [discriminate |].
    to_the_promise E. cbn in Hto, Hcl, Hlog.
    destruct (_ || _); cbn; rewrite Hto, Hcl, Hlog, <- app_assoc;
      repeat split; exists u; reflexivity.
  - destruct (convertVideo_cases h f (format (state s)) start)
      as [E | [E | (b & s2 & E & _ & _ & _ & Hlog & _ & _ & Hto & Hcl)]];
      rewrite E in Hc; try discriminate.
    to_the_promise E. cbn in Hto, Hcl, Hlog.
    rewrite Hto, Hcl, Hlog, <- !app_assoc; repeat split.
    eexists; reflexivity.
Qed.

(** The promise is rejected: the [catch] block logs and shows the
    failure toast, [finally] clears [converting]; no link is clicked and
    no object URL is left behind. *)
Lemma handleConvert_rejected :
  conversion h f (type (state s)) (format (state s)) s = Rejected ->
  let s' := exec (handleConvert h) s in
  result (handleConvert h) s = Ok tt /\
  converting (state s') = false /\
  toasts (world s') = (toasts (world s) ++ [conversionFailed])%list /\
  console (world s') = (console (world s) ++ ["Conversion failed:"])%list /\
  clicked (world s') = clicked (world s) /\
  created (world s') = created (world s) /\
  progressLog s' = (progressLog s ++ [0])%list.
Proof.
  intros Hc. cbv zeta. unfold exec, result. rewrite handleConvert_starts.
  rewrite (conversion_any_session h f (format (state s))
             (type (state s)) s start) in Hc.
  unfold conversion, settlement, result in Hc.
  destruct (type (state s)).
  - destruct (convertImage_cases h f (format (state s)) start)
      as [E | (u & s2 & E & _)];
      rewrite E in Hc; [| discriminate].
    to_the_promise E. repeat split.
  - destruct (convertVideo_cases h f (format (state s)) start)
      as [E | [E | (b & s2 & E & _)]];
      rewrite E in Hc; try discriminate.
    to_the_promise E. repeat split.
Qed.

(** The promise never settles: [handleConvert] stays suspended at its
    [await].  Neither [catch] nor [finally] runs: no toast, and
    [converting] stays set. *)
Lemma handleConvert_pending :
  conversion h f (type (state s)) (format (state s)) s = Pending ->
  handleConvert h s = (Hang, start).
Proof.
  intros Hc. rewrite handleConvert_starts.
  rewrite (conversion_any_session h f (format (state s))
             (type (state s)) s start) in Hc.
  unfold conversion, settlement, result in Hc.
  destruct (type (state s)).
  - destruct (convertImage_cases h f (format (state s)) start)
      as [E | (u & s2 & E & _)];
      rewrite E in Hc; discriminate.
  - destruct (convertVideo_cases h f (format (state s)) start)
      as [E | [E | (b & s2 & E & _)]];
      rewrite E in Hc; try discriminate.
    to_the_promise E. reflexivity.
Qed.
End Convert.

Lemma handleConvert_without_file (h : Host) (s : Session) :
  file (state s) = None -> handleConvert h s = (Ok tt, s).
Proof.
  intros E. unfold handleConvert, bind, getState. now rewrite E.
Qed.

Lemma handleConvert_without_format (h : Host) (s : Session) :
  format (state s) = "" -> handleConvert h s = (Ok tt, s).
Proof.
  intros E. unfold handleConvert, bind, getState. rewrite E.
  now destruct (file (state s)).
Qed.

(** [handleConvert] writes neither [file] nor [format]. *)
Lemma keeps_handleConvert (h : Host) : keeps (handleConvert h).
Proof.
  intros s. unfold exec.
  destruct (file (state s)) as [f |] eqn:Hf.
  - destruct (String.eqb_spec (format (state s)) "") as [E | E].
    + rewrite (handleConvert_without_format h s E). cbn [snd].
      rewrite Hf. now split.
    + rewrite (handleConvert_starts h s f Hf E), <- Hf.
      apply (keeps_try_finally _ (setConverting false)); auto with keeps.
      apply keeps_try_catch; auto with keeps.
      apply keeps_convertBody.
  - rewrite (handleConvert_without_file h s Hf). cbn [snd].
    rewrite Hf. now split.
Qed.

(** The history of a three-frame video, and the cap on a long one. *)
Example progress_history_three_frames :
  progressLog (exec (handleConvert goodHost) mp4ToMov) = [0; 0; 1; 2; 3; 100].
Proof. reflexivity. Qed.

Example progress_is_capped_on_long_videos :
  Nat.iter 250 (fun q => Z.min (q + 1) 100) 0 = 100 /\
  last (ramp 0 250) 0 = 100.
Proof. split; vm_compute; reflexivity. Qed.

(** ** What the interface can reach *)

(** An acquisition either holds the file afterwards or has left the cells
    alone; it never writes [format]. *)
Lemma handleFileChange_selection (h : Host) (f : File.t) (s : Session) :
  let s' := exec (handleFileChange h f) s in
  (file (state s') = Some f \/ state s' = state s) /\
  format (state s') = format (state s).
Proof.
  cbv zeta.
  destruct (includes IMAGE_MIME_TYPES (File.type f)) eqn:Hi.
  - destruct (handleFileChange_accepted_cells h f s image
                (detectFileType_image f s Hi)) as (_ & ? & _ & _ & ? & _).
    auto.
  - destruct (includes VIDEO_MIME_TYPES (File.type f)) eqn:Hv.
    + destruct (handleFileChange_accepted_cells h f s video
                  (detectFileType_video f s Hv)) as (_ & ? & _ & _ & ? & _).
      auto.
    + unfold exec, handleFileChange, bind.
      rewrite (detectFileType_other f s Hi Hv). cbn. auto.
Qed.

(** While no file is held, no format is selected: [resetState] clears
    both, and the select is rendered only next to a file. *)
Lemma reachable_no_file_no_format (s : Session) :
  reachable s -> file (state s) = None -> format (state s) = "".
Proof.
  induction 1 as [| s e Hr IH Hen]; [reflexivity |].
  destruct e as [h f | fmt | | h]; cbn [fire rendered] in *.
  - destruct (handleFileChange_selection h f s) as [[Hf | Hs] Hfmt];
      intros Hnone.
    + congruence.
    + rewrite Hfmt. apply IH. now rewrite <- Hs.
  - intros Hnone. apply andb_prop in Hen as [Hen _].
    unfold hasFile in Hen. cbn in Hnone.
    rewrite Hnone in Hen. discriminate.
  - reflexivity.
  - destruct (keeps_handleConvert h s) as [Hf Hfmt].
    rewrite Hf, Hfmt. exact IH.
Qed.

(** * The claims *)

(** C1 (as amended).  From every session [resetState] returns, with no
    file, the empty preview, the empty format and [progress] at 0; the
    cells [type], [converting] and [loading] are as they were. *)
Theorem C1_resetState_clears_file_preview_format_progress (s : Session) :
  let s' := exec resetState s in
  result resetState s = Ok tt /\
  file (state s') = None /\
  preview (state s') = "" /\
  format (state s') = "" /\
  progress (state s') = 0 /\
  type (state s') = type (state s) /\
  converting (state s') = converting (state s) /\
  loading (state s') = loading (state s).
Proof.
  unfold exec, result. rewrite resetState_runs. cbn. repeat split.
Qed.

(** C1, as stated, fails.  A video file is acquired in a working browser:
    its preview is the object URL [blob:0], which is held.  After
    [resetState] the preview cell is empty but [blob:0] is still held
    (nothing was revoked), and [type] is still [video], not the initial
    [image]. *)
Lemma C1_counterexample_video_preview_url_still_held :
  let s := exec (handleFileChange goodHost mp4) initialSession in
  let s' := exec resetState s in
  preview (state s) = "blob:0" /\
  held (world s) "blob:0" = true /\
  preview (state s') = "" /\
  held (world s') "blob:0" = true /\
  revoked (world s') = [] /\
  heldURLs (world s') <> [] /\
  type (state s') <> type initialState.
Proof.
  cbv zeta. repeat split; try reflexivity; vm_compute; discriminate.
Qed.



(** C3, at the input where the code departs from it.  A video is acquired
    and [ogg] is picked in a browser whose [MediaRecorder] takes
    [video/webm] only.  [new MediaRecorder] throws inside the
    [onloadedmetadata] handler, the promise of [convertVideo] never
    settles, and [handleConvert] stays suspended at its [await]: no
    failure toast, nothing logged, and [converting] is still set. *)
Theorem C3_recorder_refusal_suspends_handleConvert :
  let s' := exec (handleConvert webmOnlyHost) mp4ToOgg in
  file (state mp4ToOgg) = Some mp4 /\
  format (state mp4ToOgg) = "ogg" /\
  recorderAccepts webmOnlyHost (mkOptions "video/ogg" 8000000) = false /\
  convertVideo webmOnlyHost mp4 "ogg" mp4ToOgg = (Ok Pending, mp4ToOgg) /\
  result (handleConvert webmOnlyHost) mp4ToOgg = Hang /\
  converting (state s') = true /\
  toasts (world s') = [] /\
  console (world s') = [].
Proof. cbv zeta. repeat split. Qed.

(** C4, at the input where the code departs from it.  A picture whose read
    ends in the error event: [createPreview] sets [loading] and nothing
    ever clears it; the preview stays unset, nothing is logged.  The same
    holds for the whole acquisition [handleFileChange]. *)
Theorem C4_read_error_leaves_loading_set :
  createPreview unreadableHost png image initialSession =
    (Ok tt,
     mkSession
       (mkState None false true 0 image "" "")
       initialWorld
       []) /\
  loading (state (exec (handleFileChange unreadableHost png) initialSession))
    = true /\
  preview (state (exec (handleFileChange unreadableHost png) initialSession))
    = "".
Proof. repeat split. Qed.

(** C5.  Whenever the promise of [convertVideo] resolves, one recorder was
    made on the way.  For the format [mov] its MIME type is [video/mp4]
    and the blob is tagged [video/quicktime]; for every other format [f]
    the blob is tagged [video/f] (and so is the recorder). *)
Theorem C5_video_artifact_media_type
  (h : Host) (f : File.t) (fmt : string) (s s' : Session) (b : Blob.t) :
  convertVideo h f fmt s = (Ok (Resolved b), s') ->
  exists o,
    recorders (world s') = (recorders (world s) ++ [o])%list /\
    videoBitsPerSecond o = 8000000 /\
    (fmt = "mov" ->
     mimeType o = "video/mp4" /\ Blob.type b = "video/quicktime") /\
    (fmt <> "mov" ->
     mimeType o = "video/" ++ fmt /\ Blob.type b = "video/" ++ fmt).
Proof.
  intros E.
  destruct (convertVideo_cases h f fmt s)
    as [E' | [E' | (b' & s'' & E' & _ & Hb & Hr & _)]];
    rewrite E' in E; try discriminate.
  injection E as <- <-. eexists. split; [exact Hr |].
  rewrite Hb. cbn [videoBitsPerSecond mimeType]. split; [reflexivity |].
  split.
  - intros ->. split; reflexivity.
  - intros Hn. apply String.eqb_neq in Hn. rewrite Hn. split; reflexivity.
Qed.

Lemma C5_witness_mov_in_good_browser :
  convertVideo goodHost mp4 "mov" mp4ToMov =
    (Ok (Resolved (Blob.mk ["chunk0"; "chunk1"] "video/quicktime")),
     exec (convertVideo goodHost mp4 "mov") mp4ToMov) /\
  exists o,
    recorders (world (exec (convertVideo goodHost mp4 "mov") mp4ToMov)) =
      (recorders (world mp4ToMov) ++ [o])%list /\
    videoBitsPerSecond o = 8000000 /\
    ("mov" = "mov" ->
     mimeType o = "video/mp4" /\
     Blob.type (Blob.mk ["chunk0"; "chunk1"] "video/quicktime")
       = "video/quicktime") /\
    ("mov" <> "mov" ->
     mimeType o = "video/" ++ "mov" /\
     Blob.type (Blob.mk ["chunk0"; "chunk1"] "video/quicktime")
       = "video/" ++ "mov").
Proof.
  split.
  - reflexivity.
  - apply (C5_video_artifact_media_type goodHost mp4 "mov" mp4ToMov).
    reflexivity.
Defined.

(** C6.  A conversion attempt (a file, a non-empty format) first writes 0
    to [progress]; all it writes after that never goes down and stays
    within 0..100.  When a video conversion succeeds, what follows the 0
    is one value per frame, each the one before plus 1 capped at 100
    ([ramp]), and then the closing 100. *)
Theorem C6_progress_history_of_an_attempt
  (h : Host) (s : Session) (f : File.t) :
  file (state s) = Some f ->
  format (state s) <> "" ->
  exists l,
    progressLog (exec (handleConvert h) s) = (progressLog s ++ 0 :: l)%list /\
    nondecreasing (0 :: l) /\
    Forall (fun p => 0 <= p <= 100) (0 :: l) /\
    (type (state s) = video ->
     conversion h f video (format (state s)) s = Resolved tt ->
     l = (ramp 0 (S (framesBeforeEnd h)) ++ [100])%list).
Proof.
  intros Hf Hfmt.
  destruct (conversion h f (type (state s)) (format (state s)) s)
    as [[] | |] eqn:Hc.
  - destruct (handleConvert_resolved h s f Hf Hfmt Hc)
      as (_ & _ & _ & _ & Hlog & _).
    eexists. split; [exact Hlog |].
    assert (Hb : Forall (fun p => 0 <= p <= 100)
                   (0 :: match type (state s) with
                         | image => []
                         | video => ramp 0 (S (framesBeforeEnd h))
                         end)).
    { constructor; [lia |].
      destruct (type (state s)); [constructor | apply ramp_bounds; lia]. }
    repeat split.
    + apply nondecreasing_snoc.
      * destruct (type (state s)); [exact I |].
        apply ramp_nondecreasing. lia.
      * eapply Forall_impl; [| exact Hb]. cbn. intros; lia.
    + change (Forall (fun p => 0 <= p <= 100)
                ((0 :: match type (state s) with
                       | image => []
                       | video => ramp 0 (S (framesBeforeEnd h))
                       end) ++ [100])).
      apply Forall_app. split; [exact Hb |]. constructor; [lia | constructor].
    + intros ->. reflexivity.
  - destruct (handleConvert_rejected h s f Hf Hfmt Hc)
      as (_ & _ & _ & _ & _ & _ & Hlog).
    exists []. rewrite Hlog. repeat split.
    + constructor; [lia | constructor].
    + intros Hv. rewrite Hv in Hc. congruence.
  - exists []. unfold exec.
    rewrite (handleConvert_pending h s f Hf Hfmt Hc). repeat split.
    + constructor; [lia | constructor].
    + intros Hv. rewrite Hv in Hc. congruence.
Qed.

Lemma C6_witness_three_frames :
  file (state mp4ToMov) = Some mp4 /\
  format (state mp4ToMov) <> "" /\
  exists l,
    progressLog (exec (handleConvert goodHost) mp4ToMov)
      = (progressLog mp4ToMov ++ 0 :: l)%list /\
    nondecreasing (0 :: l) /\
    Forall (fun p => 0 <= p <= 100) (0 :: l) /\
    (type (state mp4ToMov) = video ->
     conversion goodHost mp4 video (format (state mp4ToMov)) mp4ToMov
       = Resolved tt ->
     l = (ramp 0 (S (framesBeforeEnd goodHost)) ++ [100])%list).
Proof.
  split; [reflexivity |]. split; [discriminate |].
  apply (C6_progress_history_of_an_attempt goodHost mp4ToMov mp4).
  - reflexivity.
  - discriminate.
Defined.

(** C7.  With no file, or with the empty format, [handleConvert] returns
    at once: same cells, same world (no toast), same progress history. *)
Theorem C7_handleConvert_noop_without_file_or_format
  (h : Host) (s : Session) :
  file (state s) = None \/ format (state s) = "" ->
  handleConvert h s = (Ok tt, s).
Proof.
  intros H. unfold handleConvert, bind, getState.
  destruct H as [-> | E]; [reflexivity |].
  rewrite E. destruct (file (state s)); reflexivity.
Qed.

Lemma C7_witness_file_without_format :
  (file (state (exec (handleFileChange goodHost png) initialSession)) = None \/
   format (state (exec (handleFileChange goodHost png) initialSession)) = "") /\
  handleConvert goodHost (exec (handleFileChange goodHost png) initialSession)
    = (Ok tt, exec (handleFileChange goodHost png) initialSession).
Proof.
  split.
  - right. reflexivity.
  - apply C7_handleConvert_noop_without_file_or_format. right. reflexivity.
Defined.

(** C8.  Acquisition classifies a file by its declared MIME type: in the
    image allow-list, [type] becomes [image]; in the video allow-list,
    [type] becomes [video] (and no toast is shown in either case); in
    neither, the only effect is the "Invalid file type" toast: cells,
    progress history and the rest of the world are untouched. *)
Theorem C8_acquisition_classifies_by_mime
  (h : Host) (f : File.t) (s : Session) :
  let s' := exec (handleFileChange h f) s in
  (includes IMAGE_MIME_TYPES (File.type f) = true ->
   type (state s') = image /\ file (state s') = Some f /\
   toasts (world s') = toasts (world s)) /\
  (includes VIDEO_MIME_TYPES (File.type f) = true ->
   type (state s') = video /\ file (state s') = Some f /\
   toasts (world s') = toasts (world s)) /\
  (includes IMAGE_MIME_TYPES (File.type f) = false ->
   includes VIDEO_MIME_TYPES (File.type f) = false ->
   handleFileChange h f s =
     (Ok tt,
      mkSession (state s) (pushToast invalidFileType (world s))
                (progressLog s))).
Proof.
  cbv zeta. repeat apply conj.
  - intros Hi.
    destruct (handleFileChange_accepted_cells h f s image
                (detectFileType_image f s Hi)) as (_ & ? & _ & ? & _ & ?).
    repeat split; assumption.
  - intros Hv.
    destruct (handleFileChange_accepted_cells h f s video
                (detectFileType_video f s Hv)) as (_ & ? & _ & ? & _ & ?).
    repeat split; assumption.
  - intros Hi Hv. unfold handleFileChange, bind.
    rewrite (detectFileType_other f s Hi Hv). reflexivity.
Qed.

Lemma C8_witness_png_mp4_pdf :
  type (state (exec (handleFileChange goodHost png) initialSession)) = image /\
  type (state (exec (handleFileChange goodHost mp4) initialSession)) = video /\
  handleFileChange goodHost pdf initialSession =
    (Ok tt,
     mkSession initialState (pushToast invalidFileType initialWorld) []).
Proof.
  repeat apply conj.
  - apply (C8_acquisition_classifies_by_mime goodHost png initialSession).
    reflexivity.
  - apply (C8_acquisition_classifies_by_mime goodHost mp4 initialSession).
    reflexivity.
  - apply (C8_acquisition_classifies_by_mime goodHost pdf initialSession);
      reflexivity.
Defined.

(** C9.  A picture, a format other than [gif] and [avif], the file read
    and decoded: [convertImage] resolves, whatever the browser's encoder
    does with the format, with the string [canvas.toDataURL] returned,
    and creates no object URL (the session is untouched).  That string is
    a data URI in every browser whose [toDataURL] returns data URIs.  In
    [handleConvert] it is the [href] of the link that is clicked, under
    the name [converted.<format>]; nothing is revoked and the success
    toast is shown. *)
Theorem C9_picture_encoding_has_no_failure_branch
  (h : Host) (f : File.t) (fmt : string) (s : Session)
  (src : string) (w ht : Z) :
  fmt <> "gif" -> fmt <> "avif" ->
  readAsDataURL h f = ReadLoad src ->
  decodeImage h src = ImgLoad w ht ->
  let u := toDataURL h (mkCanvas w ht src) ("image/" ++ fmt) in
  convertImage h f fmt s = (Ok (Resolved u), s) /\
  ((forall c t, dataURI (toDataURL h c t) = true) -> dataURI u = true) /\
  (file (state s) = Some f -> type (state s) = image ->
   format (state s) = fmt -> fmt <> "" ->
   let s' := exec (handleConvert h) s in
   result (handleConvert h) s = Ok tt /\
   clicked (world s') =
     (clicked (world s) ++ [mkLink u ("converted." ++ fmt)])%list /\
   created (world s') = created (world s) /\
   revoked (world s') = revoked (world s) /\
   toasts (world s') = (toasts (world s) ++ [conversionComplete])%list).
Proof.
  intros Hgif Havif Er Ed u.
  apply String.eqb_neq in Hgif, Havif.
  assert (E : forall s0, convertImage h f fmt s0 = (Ok (Resolved u), s0)).
  { intros s0. unfold convertImage, executor, handler.
    rewrite Er, Ed, Hgif, Havif. reflexivity. }
  split; [apply E |]. split; [intros Hh; apply Hh |].
  intros Hf Hk Hfmt Hne. cbv zeta.
  assert (Hne' : format (state s) <> "") by congruence.
  unfold exec, result. rewrite (handleConvert_starts h s f Hf Hne').
  rewrite Hk, Hfmt.
  pose proof (E (exec (setConverting true ;; setProgress (fun _ => 0)) s))
    as E0.
  to_the_promise E0. rewrite Hgif, Havif. cbn. repeat split.
Qed.

Lemma C9_witness_png_to_webp :
  "webp" <> "gif" /\ "webp" <> "avif" /\
  readAsDataURL goodHost png = ReadLoad "data:image/png;base64,PNGDATA" /\
  decodeImage goodHost "data:image/png;base64,PNGDATA" = ImgLoad 640 480 /\
  convertImage goodHost png "webp" pngToWebp =
    (Ok (Resolved "data:image/webp;base64,data:image/png;base64,PNGDATA"),
     pngToWebp) /\
  dataURI "data:image/webp;base64,data:image/png;base64,PNGDATA" = true /\
  clicked (world (exec (handleConvert goodHost) pngToWebp)) =
    [mkLink "data:image/webp;base64,data:image/png;base64,PNGDATA"
            "converted.webp"].
Proof.
  pose proof (C9_picture_encoding_has_no_failure_branch
                goodHost png "webp" pngToWebp
                "data:image/png;base64,PNGDATA" 640 480) as H.
  cbv zeta in H.
  destruct H as (Hp & Hd & Hc);
    [discriminate | discriminate | reflexivity | reflexivity |].
  split; [discriminate |]. split; [discriminate |].
  split; [reflexivity |]. split; [reflexivity |].
  split; [exact Hp |].
  split; [apply Hd; intros c t; reflexivity |].
  apply Hc; [reflexivity | reflexivity | reflexivity | discriminate].
Defined.

(** C10.  Whenever the awaited promise resolves, for a picture as for a
    video, [handleConvert] returns with [progress] at 100, [converting]
    cleared and the success toast shown.  For a picture the only values
    written to [progress] are the 0 of the start and that 100. *)
Theorem C10_progress_is_100_after_success
  (h : Host) (s : Session) (f : File.t) :
  file (state s) = Some f ->
  format (state s) <> "" ->
  conversion h f (type (state s)) (format (state s)) s = Resolved tt ->
  let s' := exec (handleConvert h) s in
  result (handleConvert h) s = Ok tt /\
  progress (state s') = 100 /\
  converting (state s') = false /\
  toasts (world s') = (toasts (world s) ++ [conversionComplete])%list /\
  (type (state s) = image ->
   progressLog s' = (progressLog s ++ [0; 100])%list).
Proof.
  intros Hf Hfmt Hc.
  destruct (handleConvert_resolved h s f Hf Hfmt Hc)
    as (Hr & Hp & Hcv & Hto & Hlog & _).
  cbv zeta. repeat split; try assumption.
  intros Hk. rewrite Hlog, Hk. reflexivity.
Qed.

Lemma C10_witness_picture_and_video :
  (file (state pngToWebp) = Some png /\
   format (state pngToWebp) <> "" /\
   conversion goodHost png (type (state pngToWebp))
              (format (state pngToWebp)) pngToWebp = Resolved tt /\
   progress (state (exec (handleConvert goodHost) pngToWebp)) = 100) /\
  (file (state mp4ToMov) = Some mp4 /\
   format (state mp4ToMov) <> "" /\
   conversion goodHost mp4 (type (state mp4ToMov))
              (format (state mp4ToMov)) mp4ToMov = Resolved tt /\
   progress (state (exec (handleConvert goodHost) mp4ToMov)) = 100).
Proof.
  split; (split; [reflexivity |]); (split; [discriminate |]);
    (split; [reflexivity |]).
  - apply (C10_progress_is_100_after_success goodHost pngToWebp png);
      [reflexivity | discriminate | reflexivity].
  - apply (C10_progress_is_100_after_success goodHost mp4ToMov mp4);
      [reflexivity | discriminate | reflexivity].
Defined.

(** * Further properties *)

(** ** The promises, by the answers of the browser *)

Section PromisesByHost.
Variables (h : Host) (f : File.t) (fmt : string) (s : Session).

(** The picture promise is rejected exactly when the read fails, the
    decoding fails, or [toBlob] hands [null] to a [gif] or [avif]
    request. *)
Lemma convertImage_rejected_iff :
  convertImage h f fmt s = (Ok Rejected, s) <->
  (readAsDataURL h f = ReadError \/
   readAsDataURL h f = ReadThrows \/
   exists src,
     readAsDataURL h f = ReadLoad src /\
     (decodeImage h src = ImgError \/
      exists w ht,
        decodeImage h src = ImgLoad w ht /\
        (fmt =? "gif")%string || (fmt =? "avif")%string = true /\
        toBlob h (mkCanvas w ht src) ("image/" ++ fmt) = None)).
Proof.
  unfold convertImage, executor, handler.
  destruct (readAsDataURL h f) as [src | |]; cbn;
    [| split; auto ..].
  destruct (decodeImage h src) as [w ht |] eqn:Ed; cbn.
  - destruct ((fmt =? "gif")%string || (fmt =? "avif")%string) eqn:Eb; cbn.
    + change (String "i" (String "m" (String "a" (String "g"
                (String "e" (String "/" fmt))))))
        with ("image/" ++ fmt).
      destruct (toBlob h (mkCanvas w ht src) ("image/" ++ fmt)) eqn:Et; cbn.
      * split; [intros H; discriminate H |].
        intros [H | [H | (src' & H & [H' | (w' & ht' & H' & _ & H'')])]];
          try discriminate.
        -- injection H as <-. congruence.
        -- injection H as <-. rewrite Ed in H'. injection H' as <- <-.
           cbn in Et, H''. congruence.
      * split; [| reflexivity]. intros _. right; right.
        exists src. split; [reflexivity |]. right. exists w, ht. auto.
    + split; [intros H; discriminate H |].
      intros [H | [H | (src' & H & [H' | (w' & ht' & _ & H' & _)])]];
        try discriminate.
      injection H as <-. congruence.
  - split; [| reflexivity]. intros _. right; right.
    exists src. split; [reflexivity |]. now left.
Qed.

(** A [gif] or [avif] picture whose blob is there: the promise resolves
    with a fresh object URL of that blob. *)
Lemma convertImage_blob (src : string) (w ht : Z) (b : Blob.t) :
  readAsDataURL h f = ReadLoad src ->
  decodeImage h src = ImgLoad w ht ->
  (fmt =? "gif")%string || (fmt =? "avif")%string = true ->
  toBlob h (mkCanvas w ht src) ("image/" ++ fmt) = Some b ->
  convertImage h f fmt s = (createObjectURL (OfBlob b) ;;
                            ret (Resolved (objectURL (length (created (world s)))))) s.
Proof.
  unfold convertImage, executor, handler. intros -> -> Eb Et. cbv zeta.
  rewrite Eb, Et. reflexivity.
Qed.

(** Any other format: the promise resolves with the data URI. *)
Lemma convertImage_data (src : string) (w ht : Z) :
  readAsDataURL h f = ReadLoad src ->
  decodeImage h src = ImgLoad w ht ->
  (fmt =? "gif")%string || (fmt =? "avif")%string = false ->
  convertImage h f fmt s =
    (Ok (Resolved (toDataURL h (mkCanvas w ht src) ("image/" ++ fmt))), s).
Proof.
  unfold convertImage, executor, handler. intros -> -> Eb. cbv zeta.
  rewrite Eb. reflexivity.
Qed.
End PromisesByHost.

(** ** [handleConvert], run by run *)

Section Runs.
Variables (h : Host) (s : Session) (f : File.t).
Hypothesis Hfile : file (state s) = Some f.
Hypothesis Hfmt : format (state s) <> "".

Let fmt : string := format (state s).
Let start : Session :=
  exec (setConverting true ;; setProgress (fun _ => 0)) s.

(** A rejected promise, picture or video. *)
Lemma handleConvert_failure_run :
  conversion h f (type (state s)) fmt s = Rejected ->
  handleConvert h s =
    (Ok tt,
     mkSession
       (withRun false 0 (state s))
       (world (exec (console_error "Conversion failed:" ;;
                     toast conversionFailed) s))
       (progressLog s ++ [0])).
Proof.
  intros Hc. rewrite (handleConvert_starts h s f Hfile Hfmt).
  rewrite (conversion_any_session h f fmt (type (state s)) s start) in Hc.
  unfold conversion, settlement, result in Hc. fold fmt.
  destruct (type (state s)) eqn:Hk.
  - destruct (convertImage_cases h f fmt start) as [E | (u & s2 & E & _)];
      rewrite E in Hc; [| discriminate].
    to_the_promise E. unfold withRun. rewrite Hk. reflexivity.
  - destruct (convertVideo_cases h f fmt start)
      as [E | [E | (b & s2 & E & _)]];
      rewrite E in Hc; try discriminate.
    to_the_promise E. unfold withRun. rewrite Hk. reflexivity.
Qed.

(** A picture in a data-URI format. *)
Lemma handleConvert_data_run (src : string) (w ht : Z) :
  type (state s) = image ->
  readAsDataURL h f = ReadLoad src ->
  decodeImage h src = ImgLoad w ht ->
  (fmt =? "gif")%string || (fmt =? "avif")%string = false ->
  handleConvert h s =
    (Ok tt,
     mkSession
       (withRun false 100 (state s))
       (world (exec (click (mkLink (toDataURL h (mkCanvas w ht src)
                                              ("image/" ++ fmt))
                                   ("converted." ++ fmt)) ;;
                     toast conversionComplete) s))
       (progressLog s ++ [0; 100])).
Proof.
  intros Hk Er Ed Eb. rewrite (handleConvert_starts h s f Hfile Hfmt).
  fold fmt. rewrite Hk.
  pose proof (convertImage_data h f fmt start src w ht Er Ed Eb) as E.
  to_the_promise E. fold fmt. rewrite Eb. cbn. unfold withRun.
  rewrite Hk, <- app_assoc. reflexivity.
Qed.

(** A picture in a blob format: the object URL is made, clicked and
    revoked. *)
Lemma handleConvert_blob_run (src : string) (w ht : Z) (b : Blob.t) :
  type (state s) = image ->
  readAsDataURL h f = ReadLoad src ->
  decodeImage h src = ImgLoad w ht ->
  (fmt =? "gif")%string || (fmt =? "avif")%string = true ->
  toBlob h (mkCanvas w ht src) ("image/" ++ fmt) = Some b ->
  handleConvert h s =
    (Ok tt,
     mkSession
       (withRun false 100 (state s))
       (world (exec (url <- createObjectURL (OfBlob b) ;;
                     click (mkLink url ("converted." ++ fmt)) ;;
                     revokeObjectURL url ;;
                     toast conversionComplete) s))
       (progressLog s ++ [0; 100])).
Proof.
  intros Hk Er Ed Eb Et. rewrite (handleConvert_starts h s f Hfile Hfmt).
  fold fmt. rewrite Hk.
  pose proof (convertImage_blob h f fmt start src w ht b Er Ed Eb Et) as E.
  to_the_promise E. fold fmt. rewrite Eb. cbn. unfold withRun.
  rewrite Hk, <- app_assoc. reflexivity.
Qed.

(** A video that is recorded: the recorder is made, the frames are
    drawn, the blob's object URL is made, clicked and revoked. *)
Lemma handleConvert_video_run (src : string) (w ht : Z) :
  type (state s) = video ->
  readAsDataURL h f = ReadLoad src ->
  decodeVideo h src = VideoMetadata w ht ->
  recorderAccepts h
    (mkOptions ("video/" ++ (if (fmt =? "mov")%string then "mp4" else fmt))
               8000000) = true ->
  handleConvert h s =
    (Ok tt,
     mkSession
       (withRun false 100 (state s))
       (world (exec (newMediaRecorder h
                       (mkOptions
                          ("video/" ++
                           (if (fmt =? "mov")%string then "mp4" else fmt))
                          8000000) ;;
                     url <- createObjectURL
                              (OfBlob
                                 (Blob.mk (recorded h)
                                    (if (fmt =? "mov")%string
                                     then "video/quicktime"
                                     else "video/" ++ fmt))) ;;
                     click (mkLink url ("converted." ++ fmt)) ;;
                     revokeObjectURL url ;;
                     toast conversionComplete) s))
       (progressLog s ++ 0 :: ramp 0 (S (framesBeforeEnd h)) ++ [100])).
Proof.
  intros Hk Er Ed Ea. rewrite (handleConvert_starts h s f Hfile Hfmt).
  fold fmt. rewrite Hk.
  pose proof (convertVideo_records h f fmt start src w ht Er Ed Ea) as E.
  unfold newMediaRecorder. rewrite Ea.
  to_the_promise E. unfold withRun.
  rewrite Hk, <- !app_assoc. reflexivity.
Qed.

(** A promise that never settles. *)
Lemma handleConvert_pending_run :
  conversion h f (type (state s)) fmt s = Pending ->
  handleConvert h s =
    (Hang,
     mkSession (withRun true 0 (state s)) (world s) (progressLog s ++ [0])).
Proof.
  intros Hc. rewrite (handleConvert_pending h s f Hfile Hfmt Hc).
  reflexivity.
Qed.
End Runs.

(** Every run of [handleConvert] is one of six. *)
Lemma handleConvert_shapes (h : Host) (s : Session) :
  let fmt := format (state s) in
  let name := "converted." ++ fmt in
  handleConvert h s = (Ok tt, s) \/
  handleConvert h s =
    (Hang,
     mkSession (withRun true 0 (state s)) (world s) (progressLog s ++ [0])) \/
  handleConvert h s =
    (Ok tt,
     mkSession
       (withRun false 0 (state s))
       (world (exec (console_error "Conversion failed:" ;;
                     toast conversionFailed) s))
       (progressLog s ++ [0])) \/
  (exists u,
     handleConvert h s =
       (Ok tt,
        mkSession
          (withRun false 100 (state s))
          (world (exec (click (mkLink u name) ;;
                        toast conversionComplete) s))
          (progressLog s ++ [0; 100]))) \/
  (exists b,
     handleConvert h s =
       (Ok tt,
        mkSession
          (withRun false 100 (state s))
          (world (exec (url <- createObjectURL (OfBlob b) ;;
                        click (mkLink url name) ;;
                        revokeObjectURL url ;;
                        toast conversionComplete) s))
          (progressLog s ++ [0; 100]))) \/
  (exists b o,
     recorderAccepts h o = true /\
     handleConvert h s =
       (Ok tt,
        mkSession
          (withRun false 100 (state s))
          (world (exec (newMediaRecorder h o ;;
                        url <- createObjectURL (OfBlob b) ;;
                        click (mkLink url name) ;;
                        revokeObjectURL url ;;
                        toast conversionComplete) s))
          (progressLog s ++ 0 :: ramp 0 (S (framesBeforeEnd h)) ++ [100]))).
Proof.
  cbv zeta.
  destruct (file (state s)) as [f |] eqn:Hf;
    [| left; now apply handleConvert_without_file].
  destruct (String.eqb_spec (format (state s)) "") as [E | Hfmt];
    [left; now apply handleConvert_without_format |].
  right.
  destruct (conversion h f (type (state s)) (format (state s)) s)
    as [[] | |] eqn:Hc.
  - right; right.
    unfold conversion, settlement in Hc.
    destruct (type (state s)) eqn:Hk.
    + destruct (readAsDataURL h f) as [src | |] eqn:Er;
        [| exfalso; revert Hc; unfold result, convertImage, executor;
           rewrite Er; discriminate ..].
      destruct (decodeImage h src) as [w ht |] eqn:Ed;
        [| exfalso; revert Hc; unfold result, convertImage, executor, handler;
           rewrite Er, Ed; discriminate].
      destruct ((format (state s) =? "gif")%string
                || (format (state s) =? "avif")%string) eqn:Eb.
      * destruct (toBlob h (mkCanvas w ht src)
                    ("image/" ++ format (state s))) as [b |] eqn:Et.
        -- right; left. exists b.
           exact (handleConvert_blob_run h s f Hf Hfmt src w ht b Hk Er Ed Eb Et).
        -- exfalso. revert Hc.
           unfold result, convertImage, executor, handler.
           rewrite Er, Ed. cbv zeta. rewrite Eb, Et. discriminate.
      * left. eexists.
        exact (handleConvert_data_run h s f Hf Hfmt src w ht Hk Er Ed Eb).
    + destruct (readAsDataURL h f) as [src | |] eqn:Er;
        [| exfalso; revert Hc; unfold result;
           rewrite convertVideo_read_fails by auto; discriminate ..].
      destruct (decodeVideo h src) as [w ht |] eqn:Ed;
        [| exfalso; revert Hc; unfold result;
           rewrite (convertVideo_decode_fails h f _ s src Er Ed);
           discriminate].
      destruct (recorderAccepts h
                  (mkOptions
                     ("video/" ++
                      (if (format (state s) =? "mov")%string
                       then "mp4" else format (state s)))
                     8000000)) eqn:Ea.
      * right; right. do 2 eexists. split; [exact Ea |].
        exact (handleConvert_video_run h s f Hf Hfmt src w ht Hk Er Ed Ea).
      * exfalso. revert Hc. unfold result.
        rewrite (convertVideo_recorder_throws h f _ s src w ht Er Ed Ea).
        discriminate.
  - right; left. exact (handleConvert_failure_run h s f Hf Hfmt Hc).
  - left. exact (handleConvert_pending_run h s f Hf Hfmt Hc).
Qed.

(** ** Object URLs *)

Lemma objectURL_inj (n m : nat) : objectURL n = objectURL m -> n = m.
Proof.
  unfold objectURL. cbn. intros H. injection H as H.
  assert (E : Some (Nat.to_uint n) = Some (Nat.to_uint m)).
  { rewrite <- !NilEmpty.usu. now rewrite H. }
  injection E as E.
  rewrite <- (DecimalNat.Unsigned.of_to n), <- (DecimalNat.Unsigned.of_to m).
  now rewrite E.
Qed.

(** In a world whose URLs are named in order, the next name is new. *)
Lemma next_objectURL_fresh (w : World) :
  namedInOrder w ->
  ~ In (objectURL (length (created w))) (map fst (created w)).
Proof.
  unfold namedInOrder. intros -> Hin.
  apply in_map_iff in Hin as (i & Hi & Hseq).
  apply objectURL_inj in Hi. apply in_seq in Hseq. lia.
Qed.

Lemma namedInOrder_next (w : World) (x : UrlTarget) (cs : list (string * UrlTarget)) :
  namedInOrder w ->
  cs = (created w ++ [(objectURL (length (created w)), x)])%list ->
  map fst cs = map objectURL (seq 0 (length cs)).
Proof.
  unfold namedInOrder. intros Hw ->.
  rewrite map_app, length_app, Nat.add_comm. cbn [length plus map fst].
  rewrite seq_S, map_app, Hw. reflexivity.
Qed.

(** Two entries under one name are one entry. *)
Lemma namedInOrder_one_target (w : World) (u : string) (x y : UrlTarget) :
  namedInOrder w ->
  In (u, x) (created w) -> In (u, y) (created w) -> x = y.
Proof.
  unfold namedInOrder. intros Hw Hx Hy.
  apply In_nth_error in Hx as (i & Hi), Hy as (j & Hj).
  assert (Hui : nth_error (map fst (created w)) i = Some u)
    by (rewrite nth_error_map, Hi; reflexivity).
  assert (Huj : nth_error (map fst (created w)) j = Some u)
    by (rewrite nth_error_map, Hj; reflexivity).
  rewrite Hw, nth_error_map in Hui, Huj.
  destruct (nth_error (seq 0 (length (created w))) i) as [i' |] eqn:Ei;
    [| discriminate].
  destruct (nth_error (seq 0 (length (created w))) j) as [j' |] eqn:Ej;
    [| discriminate].
  cbn [option_map] in Hui, Huj. injection Hui as Hui. injection Huj as Huj.
  assert (i' = j') by (apply objectURL_inj; congruence). subst j'.
  assert (Hi' : i' = i).
  { assert (Hl : (i < length (seq 0 (length (created w))))%nat)
      by (apply nth_error_Some; congruence).
    rewrite length_seq in Hl.
    rewrite (nth_error_nth' _ 0%nat) in Ei
      by (rewrite length_seq; exact Hl).
    rewrite seq_nth in Ei by exact Hl. injection Ei as Ei. lia. }
  assert (Hj' : i' = j).
  { assert (Hl : (j < length (seq 0 (length (created w))))%nat)
      by (apply nth_error_Some; congruence).
    rewrite length_seq in Hl.
    rewrite (nth_error_nth' _ 0%nat) in Ej
      by (rewrite length_seq; exact Hl).
    rewrite seq_nth in Ej by exact Hl. injection Ej as Ej. lia. }
  assert (i = j) by lia. subst j. congruence.
Qed.

(** What [handleConvert] does to the object URLs: it makes none, or it
    makes one, of a blob, under the next name, and revokes it. *)
Lemma handleConvert_urls (h : Host) (s : Session) :
  let w := world s in
  let w' := world (exec (handleConvert h) s) in
  exists new,
    created w' = (created w ++ new)%list /\
    revoked w' = (revoked w ++ map fst new)%list /\
    (new = [] \/
     exists b, new = [(objectURL (length (created w)), OfBlob b)]).
Proof.
  cbv zeta. unfold exec.
  destruct (handleConvert_shapes h s)
    as [E | [E | [E | [(u & E) | [(b & E) | (b & o & Ea & E)]]]]];
    rewrite E; cbn [snd world].
  1-4: exists []; cbn; rewrite !app_nil_r; auto.
  - exists [(objectURL (length (created (world s))), OfBlob b)].
    cbn. split; [reflexivity |]. split; [reflexivity |].
    right. eexists. reflexivity.
  - exists [(objectURL (length (created (world s))), OfBlob b)].
    unfold newMediaRecorder. rewrite Ea. cbn.
    split; [reflexivity |]. split; [reflexivity |].
    right. eexists. reflexivity.
Qed.

(** What an acquisition does to them: it revokes none, and makes one, of
    the file, for an accepted video alone. *)
Lemma handleFileChange_urls (h : Host) (f : File.t) (s : Session) :
  let w := world s in
  let w' := world (exec (handleFileChange h f) s) in
  revoked w' = revoked w /\
  (created w' = created w \/
   created w' =
     (created w ++ [(objectURL (length (created w)), OfFile f)])%list).
Proof.
  cbv zeta.
  destruct (includes IMAGE_MIME_TYPES (File.type f)) eqn:Hi.
  - unfold exec.
    rewrite (handleFileChange_accepts h f s image
               (detectFileType_image f s Hi)).
    unfold createPreview, try_catch, bind.
    destruct (readAsDataURL h f); cbn; auto.
  - destruct (includes VIDEO_MIME_TYPES (File.type f)) eqn:Hv.
    + unfold exec.
      rewrite (handleFileChange_accepts h f s video
                 (detectFileType_video f s Hv)).
      cbn. auto.
    + unfold exec, handleFileChange, bind.
      rewrite (detectFileType_other f s Hi Hv). cbn. auto.
Qed.

Lemma held_old_url (w w' : World) (u x : string) (t : UrlTarget) :
  created w' = (created w ++ [(u, t)])%list ->
  revoked w' = (revoked w ++ [u])%list ->
  In x (map fst (created w)) -> x <> u ->
  held w' x = held w x.
Proof.
  intros Hc Hr Hin Hne. unfold held. rewrite Hc, Hr, !existsb_app. cbn.
  apply String.eqb_neq in Hne. rewrite Hne, !orb_false_r. reflexivity.
Qed.

Lemma held_just_revoked (w w' : World) (u : string) (t : UrlTarget) :
  revoked w' = (revoked w ++ [u])%list -> held w' u = false.
Proof.
  intros Hr. unfold held. rewrite Hr, existsb_app. cbn.
  rewrite String.eqb_refl. cbn. rewrite orb_true_r. apply andb_false_r.
Qed.

(** The naming of URLs and the kind of the revoked ones, step by step. *)
Lemma fire_keeps_urls_tidy (e : Event) (s : Session) :
  namedInOrder (world s) /\ revokedAreBlobs (world s) ->
  namedInOrder (world (exec (fire e) s)) /\
  revokedAreBlobs (world (exec (fire e) s)).
Proof.
  intros [Hn Hr]. destruct e as [h f | fmt | | h]; cbn [fire].
  - destruct (handleFileChange_urls h f s) as [Hrev [Hc | Hc]].
    + split.
      * unfold namedInOrder. rewrite Hc. exact Hn.
      * intros u Hu. rewrite Hrev in Hu. rewrite Hc. now apply Hr.
    + split.
      * unfold namedInOrder. now apply (namedInOrder_next (world s) (OfFile f)).
      * intros u Hu. rewrite Hrev in Hu. destruct (Hr u Hu) as (b & Hb).
        exists b. rewrite Hc. apply in_or_app. now left.
  - split; assumption.
  - split; assumption.
  - destruct (handleConvert_urls h s) as (new & Hc & Hrev & [-> | (b & ->)]).
    + cbn in Hrev. rewrite !app_nil_r in *. split.
      * unfold namedInOrder. rewrite Hc. exact Hn.
      * intros u Hu. rewrite Hrev in Hu. rewrite Hc. now apply Hr.
    + split.
      * unfold namedInOrder. now apply (namedInOrder_next (world s) (OfBlob b)).
      * intros u Hu. rewrite Hrev in Hu. rewrite Hc.
        apply in_app_or in Hu as [Hu | [<- | []]].
        -- destruct (Hr u Hu) as (b' & Hb). exists b'.
           apply in_or_app. now left.
        -- exists b. apply in_or_app. right. now left.
Qed.

Lemma reachable_urls_tidy (s : Session) :
  reachable s -> namedInOrder (world s) /\ revokedAreBlobs (world s).
Proof.
  induction 1 as [| s e Hr IH Hen].
  - split; [reflexivity | intros u []].
  - now apply fire_keeps_urls_tidy.
Qed.

(** ** The cells, handler by handler *)

(** [handleConvert] writes [converting] and [progress] and no other
    cell; it leaves [progress] at 0 or at 100, and [converting] set only
    when it stays suspended. *)
Lemma handleConvert_cells (h : Host) (s : Session) :
  let s' := exec (handleConvert h) s in
  handleConvert h s = (Ok tt, s) \/
  (state s' = withRun true 0 (state s) /\ result (handleConvert h) s = Hang) \/
  (result (handleConvert h) s = Ok tt /\
   (state s' = withRun false 0 (state s) \/
    state s' = withRun false 100 (state s))).
Proof.
  cbv zeta. unfold exec, result.
  destruct (handleConvert_shapes h s)
    as [E | [E | [E | [(u & E) | [(b & E) | (b & o & Ea & E)]]]]];
    rewrite E; cbn [fst snd state]; auto 6.
Qed.

(** An acquisition is turned down, and the cells are as they were, or it
    is accepted under a kind whose allow-list holds the MIME type. *)
Lemma handleFileChange_cells (h : Host) (f : File.t) (s : Session) :
  let s' := exec (handleFileChange h f) s in
  state s' = state s \/
  exists k,
    includes (mimeTypesOf k) (File.type f) = true /\
    file (state s') = Some f /\
    type (state s') = k /\
    progress (state s') = 0 /\
    converting (state s') = converting (state s) /\
    format (state s') = format (state s).
Proof.
  cbv zeta.
  assert (Hacc : forall k,
            detectFileType f s = (setType k ;; ret (Some k)) s ->
            converting (state (exec (handleFileChange h f) s))
              = converting (state s)).
  { intros k E. unfold exec. rewrite (handleFileChange_accepts h f s k E).
    match goal with
    | |- context [createPreview h f k ?s0] =>
      destruct (createPreview_frame h f s0 k) as (_ & _ & Hc & _)
    end.
    unfold exec in Hc. rewrite Hc. reflexivity. }
  destruct (includes IMAGE_MIME_TYPES (File.type f)) eqn:Hi.
  - right. exists image.
    pose proof (detectFileType_image f s Hi) as E.
    destruct (handleFileChange_accepted_cells h f s image E)
      as (_ & ? & ? & ? & ? & _).
    repeat split; eauto.
  - destruct (includes VIDEO_MIME_TYPES (File.type f)) eqn:Hv.
    + right. exists video.
      pose proof (detectFileType_video f s Hv) as E.
      destruct (handleFileChange_accepted_cells h f s video E)
        as (_ & ? & ? & ? & ? & _).
      repeat split; eauto.
    + left. unfold exec, handleFileChange, bind.
      rewrite (detectFileType_other f s Hi Hv). reflexivity.
Qed.

(** * Further results *)

(** X1.  A conversion leaks no object URL: in a world whose URLs are
    named in the order of their creation, the URLs held after
    [handleConvert] are the ones held before it, however the run ends. *)
Theorem X1_handleConvert_leaves_held_urls_alone (h : Host) (s : Session) :
  namedInOrder (world s) ->
  heldURLs (world (exec (handleConvert h) s)) = heldURLs (world s).
Proof.
  intros Hn.
  destruct (handleConvert_urls h s) as (new & Hc & Hr & [-> | (b & ->)]).
  - cbn in Hr. rewrite !app_nil_r in *. unfold heldURLs. rewrite Hc.
    apply filter_ext. intros u. unfold held. now rewrite Hc, Hr.
  - cbn [map fst] in Hr. unfold heldURLs at 1. rewrite Hc, map_app, filter_app.
    cbn [map fst filter].
    rewrite (held_just_revoked (world s) _ _ (OfBlob b) Hr), app_nil_r.
    apply filter_ext_in. intros u Hu.
    apply (held_old_url (world s) _ _ u (OfBlob b) Hc Hr Hu).
    intros ->. now apply (next_objectURL_fresh (world s) Hn).
Qed.

Lemma X1_witness_gif_in_good_browser :
  namedInOrder (world pngToGifAfterVideo) /\
  heldURLs (world (exec (handleConvert goodHost) pngToGifAfterVideo))
    = heldURLs (world pngToGifAfterVideo).
Proof.
  split.
  - vm_compute. reflexivity.
  - apply X1_handleConvert_leaves_held_urls_alone. vm_compute. reflexivity.
Defined.

(** X2.  A download is offered exactly when the success toast is shown.
    Either [handleConvert] adds the "Conversion complete" toast and
    clicks one link, named [converted.<format>]; or it clicks nothing and
    adds the "Conversion failed" toast or no toast at all. *)
Theorem X2_download_iff_success_toast (h : Host) (s : Session) :
  let w := world s in
  let w' := world (exec (handleConvert h) s) in
  (toasts w' = (toasts w ++ [conversionComplete])%list /\
   exists u,
     clicked w' =
       (clicked w ++ [mkLink u ("converted." ++ format (state s))])%list) \/
  (clicked w' = clicked w /\
   (toasts w' = (toasts w ++ [conversionFailed])%list \/
    toasts w' = toasts w)).
Proof.
  cbv zeta. unfold exec.
  destruct (handleConvert_shapes h s)
    as [E | [E | [E | [(u & E) | [(b & E) | (b & o & Ea & E)]]]]];
    rewrite E; cbn [snd world].
  - right. auto.
  - right. auto.
  - right. cbn. auto.
  - left. cbn. split; [reflexivity |]. eexists. reflexivity.
  - left. cbn. split; [reflexivity |]. eexists. reflexivity.
  - left. unfold newMediaRecorder. rewrite Ea. cbn.
    split; [reflexivity |]. eexists. reflexivity.
Qed.

Lemma withRun_withRun (c c' : bool) (p p' : Z) (st : State) :
  withRun c p (withRun c' p' st) = withRun c p st.
Proof. reflexivity. Qed.

(** X3.  A failed picture conversion can be retried.  After a rejected
    picture promise the cells are those of before with [progress] at 0
    and [converting] cleared; when the promise of a second attempt
    resolves, that attempt ends as a first one would: [progress] at 100,
    [converting] cleared, every other cell untouched, and the two toasts
    in order. *)
Theorem X3_failed_picture_conversion_can_be_retried
  (h1 h2 : Host) (s : Session) (f : File.t) :
  file (state s) = Some f ->
  type (state s) = image ->
  format (state s) <> "" ->
  settlement (convertImage h1 f (format (state s))) s = Rejected ->
  settlement (convertImage h2 f (format (state s))) s = Resolved tt ->
  let s1 := exec (handleConvert h1) s in
  let s2 := exec (handleConvert h2) s1 in
  state s1 = withRun false 0 (state s) /\
  result (handleConvert h2) s1 = Ok tt /\
  state s2 = withRun false 100 (state s) /\
  toasts (world s2) =
    (toasts (world s) ++ [conversionFailed; conversionComplete])%list.
Proof.
  intros Hf Hk Hfmt Hrej0 Hres0. cbv zeta.
  assert (Hrej : conversion h1 f (type (state s)) (format (state s)) s
                 = Rejected) by (rewrite Hk; exact Hrej0).
  assert (Hres : conversion h2 f (type (state s)) (format (state s)) s
                 = Resolved tt) by (rewrite Hk; exact Hres0).
  pose proof (handleConvert_failure_run h1 s f Hf Hfmt Hrej) as E1.
  match type of E1 with _ = (_, ?x) => set (s1 := x) in * end.
  replace (exec (handleConvert h1) s) with s1
    by (unfold exec; rewrite E1; reflexivity).
  assert (Hf1 : file (state s1) = Some f) by exact Hf.
  assert (Hfmt1 : format (state s1) <> "") by exact Hfmt.
  assert (Hres1 : conversion h2 f (type (state s1)) (format (state s1)) s1
                  = Resolved tt).
  { rewrite (conversion_any_session h2 f _ _ s1 s). exact Hres. }
  destruct (handleConvert_resolved h2 s1 f Hf1 Hfmt1 Hres1)
    as (Hr & Hp & Hc & Hto & _).
  split; [reflexivity |]. split; [exact Hr |]. split.
  - destruct (handleConvert_cells h2 s1)
      as [E | [[E Hh] | [_ [E | E]]]].
    + unfold exec in Hp. rewrite E in Hp. discriminate Hp.
    + rewrite Hh in Hr. discriminate Hr.
    + rewrite E in Hp. discriminate Hp.
    + rewrite E. reflexivity.
  - rewrite Hto. cbn. rewrite <- app_assoc. reflexivity.
Qed.

Lemma X3_witness_unreadable_then_good :
  file (state pngToWebp) = Some png /\
  type (state pngToWebp) = image /\
  format (state pngToWebp) <> "" /\
  settlement (convertImage unreadableHost png (format (state pngToWebp)))
             pngToWebp = Rejected /\
  settlement (convertImage goodHost png (format (state pngToWebp)))
             pngToWebp = Resolved tt /\
  state (exec (handleConvert goodHost)
           (exec (handleConvert unreadableHost) pngToWebp))
    = withRun false 100 (state pngToWebp).
Proof.
  split; [reflexivity |]. split; [reflexivity |]. split; [discriminate |].
  split; [reflexivity |]. split; [reflexivity |].
  apply (X3_failed_picture_conversion_can_be_retried
           unreadableHost goodHost pngToWebp png);
    [reflexivity | reflexivity | discriminate | reflexivity | reflexivity].
Defined.

(** X4.  A suspended conversion blocks the widget for good.  Once
    [converting] is set, nothing the interface offers clears it: not
    the reset button, not a new file, not the select.  The convert
    button stays disabled in every session reached from there. *)
Theorem X4_converting_is_never_cleared_from_outside (s s' : Session) :
  converting (state s) = true ->
  after s s' ->
  converting (state s') = true /\
  forall h, rendered (ClickConvert h) (state s') = false.
Proof.
  intros Hc Hafter.
  assert (H : converting (state s') = true).
  { induction Hafter as [| s' e Ha IH Hen]; [assumption |].
    destruct e as [h f | fmt | | h]; cbn [fire] in *.
    - destruct (handleFileChange_cells h f s')
        as [E | (k & _ & _ & _ & _ & E & _)]; rewrite E; exact IH.
    - exact IH.
    - exact IH.
    - cbn in Hen. rewrite IH in Hen. cbn in Hen.
      rewrite andb_false_r in Hen. discriminate. }
  split; [exact H |].
  intros h. cbn. rewrite H. cbn. apply andb_false_r.
Qed.

Lemma X4_witness_reset_and_new_file :
  converting (state (exec (handleConvert webmOnlyHost) mp4ToOgg)) = true /\
  after (exec (handleConvert webmOnlyHost) mp4ToOgg)
        (exec (fire (SelectFormat "webp"))
           (exec (fire (DropFile goodHost png))
              (exec (fire ClickReset)
                 (exec (handleConvert webmOnlyHost) mp4ToOgg)))) /\
  rendered (ClickConvert goodHost)
    (state (exec (fire (SelectFormat "webp"))
              (exec (fire (DropFile goodHost png))
                 (exec (fire ClickReset)
                    (exec (handleConvert webmOnlyHost) mp4ToOgg)))))
    = false.
Proof.
  assert (Ha : after (exec (handleConvert webmOnlyHost) mp4ToOgg)
                 (exec (fire (SelectFormat "webp"))
                    (exec (fire (DropFile goodHost png))
                       (exec (fire ClickReset)
                          (exec (handleConvert webmOnlyHost) mp4ToOgg))))).
  { repeat (apply after_fire; [| reflexivity]). apply after_here. }
  split; [reflexivity |]. split; [exact Ha |].
  apply (X4_converting_is_never_cleared_from_outside
           (exec (handleConvert webmOnlyHost) mp4ToOgg) _);
    [reflexivity | exact Ha].
Defined.

(** Two sessions the interface reaches. *)
Lemma reachable_pngToWebp : reachable pngToWebp.
Proof.
  replace pngToWebp
    with (exec (fire (SelectFormat "webp"))
            (exec (fire (DropFile goodHost png)) initialSession))
    by (vm_compute; reflexivity).
  repeat (apply reachable_fire; [| vm_compute; reflexivity]).
  apply reachable_initial.
Qed.

Lemma reachable_mp4ToMov : reachable mp4ToMov.
Proof.
  replace mp4ToMov
    with (exec (fire (SelectFormat "mov"))
            (exec (fire (DropFile goodHost mp4)) initialSession))
    by (vm_compute; reflexivity).
  repeat (apply reachable_fire; [| vm_compute; reflexivity]).
  apply reachable_initial.
Qed.

(** X5.  In every session the interface reaches, the selected format is
    empty or one of the formats offered for the current kind of file: a
    conversion is never started with a format of the other kind. *)
Theorem X5_selected_format_fits_the_kind (s : Session) :
  reachable s ->
  format (state s) = "" \/
  includes (formatsOf (type (state s))) (format (state s)) = true.
Proof.
  induction 1 as [| s e Hr IH Hen]; [now left |].
  destruct e as [h f | fmt | | h]; cbn [fire].
  - left. cbn in Hen. unfold hasFile in Hen.
    destruct (file (state s)) eqn:Hfile; [discriminate |].
    pose proof (reachable_no_file_no_format s Hr Hfile) as Hempty.
    destruct (handleFileChange_cells h f s)
      as [E | (k & _ & _ & _ & _ & _ & E)]; rewrite E; exact Hempty.
  - right. cbn in Hen. apply andb_prop in Hen as [_ Hen]. exact Hen.
  - now left.
  - destruct (handleConvert_cells h s) as [E | [[E _] | [_ [E | E]]]].
    + unfold exec. rewrite E. exact IH.
    + rewrite E. exact IH.
    + rewrite E. exact IH.
    + rewrite E. exact IH.
Qed.

Lemma X5_witness_mov_is_a_video_format :
  reachable mp4ToMov /\
  (format (state mp4ToMov) = "" \/
   includes (formatsOf (type (state mp4ToMov))) (format (state mp4ToMov))
     = true).
Proof.
  split; [exact reachable_mp4ToMov |].
  apply X5_selected_format_fits_the_kind. exact reachable_mp4ToMov.
Defined.

(** X6.  In every session the interface reaches, the kind in [type] is
    the kind of the file that is held: the MIME type of the file is in
    the allow-list of that kind. *)
Theorem X6_kind_is_the_kind_of_the_file (s : Session) (f : File.t) :
  reachable s ->
  file (state s) = Some f ->
  includes (mimeTypesOf (type (state s))) (File.type f) = true.
Proof.
  intros Hr. revert f.
  induction Hr as [| s e Hr IH Hen]; [discriminate |].
  intros g. destruct e as [h f | fmt | | h]; cbn [fire].
  - destruct (handleFileChange_cells h f s)
      as [E | (k & Hk & Hf & Ht & _)].
    + rewrite E. apply IH.
    + rewrite Hf, Ht. intros [= <-]. exact Hk.
  - apply IH.
  - discriminate.
  - destruct (handleConvert_cells h s) as [E | [[E _] | [_ [E | E]]]].
    + unfold exec. rewrite E. apply IH.
    + rewrite E. apply IH.
    + rewrite E. apply IH.
    + rewrite E. apply IH.
Qed.

Lemma X6_witness_mp4_is_video :
  reachable mp4ToMov /\
  file (state mp4ToMov) = Some mp4 /\
  includes (mimeTypesOf (type (state mp4ToMov))) (File.type mp4) = true.
Proof.
  split; [exact reachable_mp4ToMov |]. split; [reflexivity |].
  apply X6_kind_is_the_kind_of_the_file;
    [exact reachable_mp4ToMov | reflexivity].
Defined.

(** The URL of a file is never among the revoked ones. *)
Lemma file_url_is_held (w : World) (u : string) (f : File.t) :
  namedInOrder w -> revokedAreBlobs w ->
  In (u, OfFile f) (created w) -> held w u = true.
Proof.
  intros Hn Hb Hin. unfold held. apply andb_true_intro. split.
  - apply existsb_exists. exists (u, OfFile f).
    split; [assumption | apply String.eqb_refl].
  - apply negb_true_iff.
    destruct (existsb (String.eqb u) (revoked w)) eqn:Ex; [| reflexivity].
    apply existsb_exists in Ex as (v & Hv & Euv).
    apply String.eqb_eq in Euv. subst v.
    destruct (Hb u Hv) as (b & Hblob).
    pose proof (namedInOrder_one_target w u _ _ Hn Hin Hblob) as Hsame.
    discriminate Hsame.
Qed.

(** X7.  The component never revokes the object URL of a file.  In every
    session the interface reaches, each URL that [createPreview] made for
    a video file is still held, whatever was reset, dropped or converted
    since. *)
Theorem X7_preview_urls_are_never_revoked
  (s : Session) (u : string) (f : File.t) :
  reachable s ->
  In (u, OfFile f) (created (world s)) ->
  held (world s) u = true.
Proof.
  intros Hr Hin. destruct (reachable_urls_tidy s Hr) as [Hn Hb].
  now apply file_url_is_held with f.
Qed.

Lemma X7_witness_after_a_conversion :
  reachable (exec (fire (ClickConvert goodHost)) mp4ToMov) /\
  In ("blob:0", OfFile mp4)
     (created (world (exec (fire (ClickConvert goodHost)) mp4ToMov))) /\
  held (world (exec (fire (ClickConvert goodHost)) mp4ToMov)) "blob:0" = true.
Proof.
  assert (Hr : reachable (exec (fire (ClickConvert goodHost)) mp4ToMov)).
  { apply reachable_fire;
      [exact reachable_mp4ToMov | vm_compute; reflexivity]. }
  assert (Hin : In ("blob:0", OfFile mp4)
                  (created (world (exec (fire (ClickConvert goodHost))
                                        mp4ToMov)))).
  { vm_compute. left. reflexivity. }
  split; [exact Hr |]. split; [exact Hin |].
  exact (X7_preview_urls_are_never_revoked _ _ _ Hr Hin).
Defined.

Lemma frames_closed (k : nat) (p : Z) :
  Nat.iter (S k) (fun q => Z.min (q + 1) 100) p
    = Z.min (p + Z.of_nat k + 1) 100.
Proof.
  rewrite Nat.iter_succ_r, iter_frame_closed by lia. lia.
Qed.

(** X8.  [progress] counts frames, not playback time.  A run of
    [drawFrame] with [more] further frames to come returns and leaves
    [progress] at its old value plus the number of frames drawn, capped
    at 100; no other cell and nothing of the world changes. *)
Theorem X8_drawFrame_counts_frames (more : nat) (s : Session) :
  result (drawFrame more) s = Ok tt /\
  state (exec (drawFrame more) s) =
    withRun (converting (state s))
            (Z.min (progress (state s) + Z.of_nat more + 1) 100)
            (state s) /\
  world (exec (drawFrame more) s) = world s.
Proof.
  unfold exec, result. rewrite drawFrame_runs. cbn [fst snd state world].
  rewrite frames_closed. repeat split.
Qed.

(** X9.  What the video promise does with a failure.  When the read
    fails, or the video element answers with the error event in place of
    [loadedmetadata], the promise is rejected and nothing else has
    happened: no recorder, no write to [progress].  When the recorder
    refuses the MIME type asked for ([video/mp4] when the format is
    [mov]), the promise is left pending, again with nothing else done.
    And a promise that has resolved had the file read, the metadata
    loaded and the recorder accepted. *)
Theorem X9_video_promise_on_failure
  (h : Host) (f : File.t) (fmt : string) (s : Session) :
  let o :=
    mkOptions ("video/" ++ (if (fmt =? "mov")%string then "mp4" else fmt))
              8000000 in
  let loaded :=
    exists src w ht,
      readAsDataURL h f = ReadLoad src /\
      decodeVideo h src = VideoMetadata w ht in
  (readAsDataURL h f = ReadError \/
   readAsDataURL h f = ReadThrows \/
   (exists src,
      readAsDataURL h f = ReadLoad src /\ decodeVideo h src = VideoError) ->
   convertVideo h f fmt s = (Ok Rejected, s)) /\
  (loaded -> recorderAccepts h o = false ->
   convertVideo h f fmt s = (Ok Pending, s)) /\
  (settlement (convertVideo h f fmt) s = Resolved tt ->
   loaded /\ recorderAccepts h o = true).
Proof.
  cbv zeta. repeat apply conj.
  - intros [E | [E | (src & Er & Ed)]].
    + apply convertVideo_read_fails. now left.
    + apply convertVideo_read_fails. now right.
    + now apply convertVideo_decode_fails with src.
  - intros (src & w & ht & Er & Ed) Ea.
    now apply convertVideo_recorder_throws with src w ht.
  - unfold settlement, result. intros H.
    destruct (readAsDataURL h f) as [src | |] eqn:Er;
      [| rewrite convertVideo_read_fails in H by auto; discriminate H ..].
    destruct (decodeVideo h src) as [w ht |] eqn:Ed;
      [| rewrite (convertVideo_decode_fails h f fmt s src Er Ed) in H;
         discriminate H].
    destruct (recorderAccepts h _) eqn:Ea.
    + split; [| reflexivity]. exists src, w, ht. auto.
    + rewrite (convertVideo_recorder_throws h f fmt s src w ht Er Ed Ea) in H.
      discriminate H.
Qed.

Lemma X9_witness_three_browsers :
  convertVideo unreadableHost mp4 "webm" mp4ToMov = (Ok Rejected, mp4ToMov) /\
  convertVideo webmOnlyHost mp4 "mov" mp4ToMov = (Ok Pending, mp4ToMov) /\
  recorderAccepts goodHost (mkOptions "video/mp4" 8000000) = true.
Proof.
  repeat apply conj.
  - apply (X9_video_promise_on_failure unreadableHost mp4 "webm" mp4ToMov).
    left. reflexivity.
  - apply (X9_video_promise_on_failure webmOnlyHost mp4 "mov" mp4ToMov).
    + exists "data:video/mp4;base64,MP4DATA", 640, 480.
      split; reflexivity.
    + reflexivity.
  - apply (X9_video_promise_on_failure goodHost mp4 "mov" mp4ToMov).
    vm_compute. reflexivity.
Defined.

(** X10.  The picture promise never stays pending, and it is rejected
    exactly when the read fails, the decoding fails, or [canvas.toBlob]
    hands [null] to a [gif] or [avif] request; a rejected promise has
    made no object URL. *)
Theorem X10_picture_promise_by_browser_answers
  (h : Host) (f : File.t) (fmt : string) (s : Session) :
  settlement (convertImage h f fmt) s <> Pending /\
  (settlement (convertImage h f fmt) s = Rejected <->
   (readAsDataURL h f = ReadError \/
    readAsDataURL h f = ReadThrows \/
    exists src,
      readAsDataURL h f = ReadLoad src /\
      (decodeImage h src = ImgError \/
       exists w ht,
         decodeImage h src = ImgLoad w ht /\
         (fmt =? "gif")%string || (fmt =? "avif")%string = true /\
         toBlob h (mkCanvas w ht src) ("image/" ++ fmt) = None))) /\
  (settlement (convertImage h f fmt) s = Rejected ->
   exec (convertImage h f fmt) s = s).
Proof.
  rewrite <- convertImage_rejected_iff with (s := s).
  unfold settlement, result, exec.
  destruct (convertImage_cases h f fmt s) as [E | (u & s2 & E & _)];
    rewrite E; cbn [fst snd].
  - repeat split; auto; discriminate.
  - repeat split; try discriminate.
Qed.

(** X11.  What a video conversion produces is a video the widget takes
    back.  For each of the four formats of the select, the media type of
    the blob the promise resolves with is in the video allow-list, so a
    file of that declared type is accepted as a video.  For [mov] this
    holds because the blob is tagged [video/quicktime]. *)
Theorem X11_converted_video_is_accepted_again
  (h h' : Host) (f : File.t) (fmt : string) (s s' s0 : Session) (b : Blob.t)
  (name data : string) :
  In fmt VIDEO_FORMATS ->
  convertVideo h f fmt s = (Ok (Resolved b), s') ->
  let g := File.mk name (Blob.type b) data in
  includes VIDEO_MIME_TYPES (Blob.type b) = true /\
  file (state (exec (handleFileChange h' g) s0)) = Some g /\
  type (state (exec (handleFileChange h' g) s0)) = video.
Proof.
  intros Hin E g.
  assert (Hb : includes VIDEO_MIME_TYPES (Blob.type b) = true).
  { destruct (convertVideo_cases h f fmt s)
      as [E' | [E' | (b' & s'' & E' & _ & Hb & _)]];
      rewrite E' in E; try discriminate.
    injection E as <- <-. rewrite Hb.
    cbn in Hin. repeat destruct Hin as [<- | Hin]; try reflexivity.
    contradiction. }
  split; [exact Hb |].
  destruct (handleFileChange_accepted_cells h' g s0 video
              (detectFileType_video g s0 Hb)) as (_ & Hf & _ & Hk & _).
  split; assumption.
Qed.

Lemma X11_witness_mov :
  In "mov" VIDEO_FORMATS /\
  convertVideo goodHost mp4 "mov" mp4ToMov =
    (Ok (Resolved (Blob.mk ["chunk0"; "chunk1"] "video/quicktime")),
     exec (convertVideo goodHost mp4 "mov") mp4ToMov) /\
  type (state (exec (handleFileChange goodHost
                       (File.mk "converted.mov" "video/quicktime" "chunks"))
                    initialSession)) = video.
Proof.
  assert (Hin : In "mov" VIDEO_FORMATS) by (cbn; auto).
  assert (E : convertVideo goodHost mp4 "mov" mp4ToMov =
              (Ok (Resolved (Blob.mk ["chunk0"; "chunk1"] "video/quicktime")),
               exec (convertVideo goodHost mp4 "mov") mp4ToMov))
    by (vm_compute; reflexivity).
  split; [exact Hin |]. split; [exact E |].
  apply (X11_converted_video_is_accepted_again
           goodHost goodHost mp4 "mov" mp4ToMov _ initialSession _
           "converted.mov" "chunks" Hin E).
Defined.

(** An acquisition always returns. *)
Lemma handleFileChange_returns (h : Host) (f : File.t) (s : Session) :
  handleFileChange h f s = (Ok tt, exec (handleFileChange h f) s).
Proof.
  assert (H : result (handleFileChange h f) s = Ok tt).
  { destruct (includes IMAGE_MIME_TYPES (File.type f)) eqn:Hi.
    - now destruct (handleFileChange_accepted_cells h f s image
                      (detectFileType_image f s Hi)).
    - destruct (includes VIDEO_MIME_TYPES (File.type f)) eqn:Hv.
      + now destruct (handleFileChange_accepted_cells h f s video
                        (detectFileType_video f s Hv)).
      + unfold result, handleFileChange, bind.
        now rewrite (detectFileType_other f s Hi Hv). }
  unfold result, exec in *. destruct (handleFileChange h f s) as [o s1].
  cbn in *. now subst.
Qed.

(** X12.  The two entry points of the drop zone agree, and both look at
    the first file alone.  With no file in the list (or no list) the
    session is left as it is; otherwise the session is the one
    [handleFileChange] gives for the first file, whatever follows it in
    the list.  [handleDrop] prevents the default action in both cases. *)
Theorem X12_drop_and_input_take_the_first_file
  (h : Host) (l : list File.t) (p : bool) (s : Session) :
  handleDrop h (mkDragEvent l p) s =
    (Ok (mkDragEvent l true), exec (handleInputChange h (Some l)) s) /\
  exec (handleInputChange h (Some l)) s =
    match l with
    | [] => s
    | f :: _ => exec (handleFileChange h f) s
    end /\
  handleInputChange h None s = (Ok tt, s).
Proof.
  destruct l as [| f rest]; repeat split.
  unfold handleDrop, handleInputChange, bind, exec. cbn [files nth_error].
  rewrite handleFileChange_returns. reflexivity.
Qed.

(** X13.  [createPreview] leaves the spinner on in one case only: it ends
    with [loading] set exactly when the file is a picture and the read
    ends in the error event. *)
Theorem X13_loading_stays_set_only_on_read_error
  (h : Host) (f : File.t) (k : ConversionType) (s : Session) :
  loading (state (exec (createPreview h f k) s)) = true <->
  k = image /\ readAsDataURL h f = ReadError.
Proof.
  unfold exec, createPreview, try_catch, bind. destruct k; cbn.
  - destruct (readAsDataURL h f); cbn; split;
      try discriminate; try (intros [_ H]; discriminate); auto.
  - split; [discriminate | intros [H _]; discriminate].
Qed.

(** X15.  A video that the interface lets in gets a working preview: the
    preview cell holds a fresh object URL, made for that very file, that
    is held (not revoked), and the spinner is off. *)
Theorem X15_video_preview_url_is_live
  (h : Host) (f : File.t) (s : Session) :
  reachable s ->
  rendered (DropFile h f) (state s) = true ->
  includes VIDEO_MIME_TYPES (File.type f) = true ->
  let s' := exec (handleFileChange h f) s in
  preview (state s') = objectURL (length (created (world s))) /\
  In (preview (state s'), OfFile f) (created (world s')) /\
  held (world s') (preview (state s')) = true /\
  loading (state s') = false.
Proof.
  intros Hr Hen Hv s'.
  assert (Hr' : reachable s') by exact (reachable_fire s (DropFile h f) Hr Hen).
  destruct (reachable_urls_tidy s' Hr') as [Hn Hb].
  assert (E : s' = exec (createPreview h f video)
                     (mkSession
                        (mkState (Some f) (converting (state s))
                                 (loading (state s)) 0 video
                                 (format (state s)) (preview (state s)))
                        (world s) (progressLog s ++ [0]))).
  { unfold s', exec.
    now rewrite (handleFileChange_accepts h f s video
                   (detectFileType_video f s Hv)). }
  assert (Hp : preview (state s') = objectURL (length (created (world s))))
    by (rewrite E; reflexivity).
  assert (Hin : In (preview (state s'), OfFile f) (created (world s'))).
  { rewrite Hp, E. cbn. apply in_or_app. right. now left. }
  repeat split; try assumption.
  - now apply file_url_is_held with f.
  - rewrite E. reflexivity.
Qed.

Lemma X15_witness_first_video :
  reachable initialSession /\
  rendered (DropFile goodHost mp4) (state initialSession) = true /\
  includes VIDEO_MIME_TYPES (File.type mp4) = true /\
  held (world (exec (handleFileChange goodHost mp4) initialSession))
       (preview (state (exec (handleFileChange goodHost mp4) initialSession)))
    = true.
Proof.
  split; [apply reachable_initial |]. split; [reflexivity |].
  split; [reflexivity |].
  apply (X15_video_preview_url_is_live goodHost mp4 initialSession);
    [apply reachable_initial | reflexivity | reflexivity].
Defined.

(** X16.  A conversion never touches the selection.  However
    [handleConvert] ends (guard, success, failure, or suspended for
    ever), the cells [file], [type], [format], [preview] and [loading]
    are the ones it started with. *)
Theorem X16_handleConvert_keeps_the_selection (h : Host) (s : Session) :
  let s' := exec (handleConvert h) s in
  file (state s') = file (state s) /\
  type (state s') = type (state s) /\
  format (state s') = format (state s) /\
  preview (state s') = preview (state s) /\
  loading (state s') = loading (state s).
Proof.
  cbv zeta.
  destruct (handleConvert_cells h s) as [E | [[E _] | [_ [E | E]]]].
  - unfold exec. rewrite E. repeat split.
  - rewrite E. repeat split.
  - rewrite E. repeat split.
  - rewrite E. repeat split.
Qed.

Lemma reachable_after (s s' : Session) :
  reachable s -> after s s' -> reachable s'.
Proof.
  intros Hr. induction 1 as [| s' e Ha IH Hen]; [assumption |].
  now apply reachable_fire.
Qed.

(** One handler never releases a URL that was held when it started. *)
Lemma fire_keeps_held (e : Event) (s : Session) (u : string) :
  namedInOrder (world s) ->
  held (world s) u = true ->
  held (world (exec (fire e) s)) u = true.
Proof.
  intros Hn Hu.
  assert (Hin : In u (map fst (created (world s)))).
  { unfold held in Hu. apply andb_prop in Hu as [Hu _].
    apply existsb_exists in Hu as ([v x] & Hv & E).
    apply String.eqb_eq in E. cbn in E. subst v.
    apply in_map_iff. exists (u, x). auto. }
  destruct e as [h f | fmt | | h]; cbn [fire].
  - destruct (handleFileChange_urls h f s) as [Hr [Hc | Hc]];
      unfold held in *; rewrite Hr, Hc; [exact Hu |].
    rewrite existsb_app. apply andb_prop in Hu as [Hu1 Hu2].
    now rewrite Hu1, Hu2.
  - exact Hu.
  - exact Hu.
  - destruct (handleConvert_urls h s) as (new & Hc & Hr & [-> | (b & ->)]).
    + cbn in Hr. rewrite !app_nil_r in *.
      unfold held in *. now rewrite Hc, Hr.
    + cbn [map fst] in Hr.
      rewrite (held_old_url (world s) _ _ u (OfBlob b) Hc Hr Hin);
        [exact Hu |].
      intros ->. now apply (next_objectURL_fresh (world s) Hn).
Qed.

(** X17.  What the widget holds between two handlers it holds for good.
    From a session the interface reaches, an object URL that is held
    stays held in every later session: no reset, no new file and no
    conversion releases it. *)
Theorem X17_held_urls_are_never_released
  (s s' : Session) (u : string) :
  reachable s ->
  after s s' ->
  held (world s) u = true ->
  held (world s') u = true.
Proof.
  intros Hr Ha Hu.
  induction Ha as [| s' e Ha IH Hen]; [assumption |].
  apply fire_keeps_held; [| exact IH].
  apply (reachable_urls_tidy s' (reachable_after s s' Hr Ha)).
Qed.

Lemma X17_witness_reset_after_video :
  reachable mp4ToMov /\
  after mp4ToMov
        (exec (fire (DropFile goodHost png)) (exec (fire ClickReset) mp4ToMov)) /\
  held (world mp4ToMov) "blob:0" = true /\
  held (world (exec (fire (DropFile goodHost png))
                 (exec (fire ClickReset) mp4ToMov))) "blob:0" = true.
Proof.
  assert (Ha : after mp4ToMov
                 (exec (fire (DropFile goodHost png))
                    (exec (fire ClickReset) mp4ToMov))).
  { repeat (apply after_fire; [| vm_compute; reflexivity]). apply after_here. }
  assert (Hu : held (world mp4ToMov) "blob:0" = true)
    by (vm_compute; reflexivity).
  split; [exact reachable_mp4ToMov |]. split; [exact Ha |].
  split; [exact Hu |].
  exact (X17_held_urls_are_never_released _ _ _ reachable_mp4ToMov Ha Hu).
Defined.
